(** * Voice isolation service (modal/voice_isolation.py)

    A shallow embedding of [VoiceIsolator.isolate_voice] and of the HTTP
    handler [isolate_voice_endpoint].

    - Python values travelling in the JSON request and response are the
      inductive [pyval]; the request, the result of [isolate_voice] and the
      response are dictionaries with string keys ([gmap string pyval]).
    - A tensor of shape [channels, samples] is a list of channels, each a
      list of float32 samples; the output of the separation model, of shape
      [batch, sources, channels, samples], nests two more lists.
    - Python exceptions are explicit: every computation that can raise lives
      in the monad [outcome], and [except Exception] is a handler that
      looks at the class of what was raised.
    - The third-party libraries (base64, torchaudio, demucs, soundfile) are
      the fields of the class [AudioLibs]. Each call may return or raise;
      beyond the types, what is taken from their behaviour is that the
      resampler treats every channel on its own and refuses a tensor
      without channels. *)

From Stdlib Require Import ZArith List Lia Bool.
From Stdlib Require Import Floats.SpecFloat.
From stdpp Require Import gmap strings list fin_maps.

Set Warnings "-register-all".
Local Open Scope string_scope.
Local Open Scope Z_scope.

(** ** Python values *)

Module Py.

(** [float] of Python is IEEE binary64, a [spec_float] of precision 53. *)
Inductive pyval : Type :=
| PNone
| PBool (b : bool)
| PInt (n : Z)
| PFloat (x : spec_float)
| PStr (s : string)
| PList (l : list pyval)
| PDict (d : gmap string pyval).

(** [bool(v)], the test performed by [if v:] and [if not v:]. *)
Definition truthy (v : pyval) : bool :=
match v with
| PNone => false
| PBool b => b
| PInt n => negb (n =? 0)
| PFloat x => match x with S754_zero _ => false | _ => true end
| PStr s => negb (String.length s =? 0)%nat
| PList l => negb (length l =? 0)%nat
| PDict d => negb (size d =? 0)%nat
end.

(** [d.get(key, default)]; [d.get(key)] is [get d key PNone]. *)
Definition get (d : gmap string pyval) (key : string) (default : pyval) : pyval :=
match d !! key with
| Some v => v
| None => default
end.

(** ** Exceptions

  [except Exception] catches the instances of [Exception]; what derives
  from [BaseException] only ([KeyboardInterrupt], [SystemExit],
  [GeneratorExit], [asyncio.CancelledError]) passes through it. *)
Inductive exn_base : Type :=
| FromException
| FromBaseExceptionOnly.

Record exn : Type := MkExn {
exn_base_class : exn_base;
exn_class : string;
exn_str : string            (* what [str(e)] returns *)
}.

Definition isinstance_Exception (e : exn) : bool :=
match exn_base_class e with
| FromException => true
| FromBaseExceptionOnly => false
end.

Inductive outcome (A : Type) : Type :=
| Returns (a : A)
| Raises (e : exn).
Arguments Returns {A} a.
Arguments Raises {A} e.

Definition bind {A B : Type} (m : outcome A) (k : A -> outcome B) : outcome B :=
match m with
| Returns a => k a
| Raises e => Raises e
end.

(** [try: body  except Exception as e: handler(e)] *)
Definition try_except_Exception {A : Type}
  (body : outcome A) (handler : exn -> outcome A) : outcome A :=
match body with
| Returns a => Returns a
| Raises e => if isinstance_Exception e then handler e else Raises e
end.

End Py.
Import Py.

Declare Scope py_scope.
Delimit Scope py_scope with py.
Notation "'let*' x ':=' m 'in' k" := (bind m (fun x => k))
  (at level 10, x pattern, m at level 100, k at level 200) : py_scope.
Local Open Scope py_scope.

Definition KeyError (key : string) : exn :=
  MkExn FromException "KeyError" ("'" ++ key ++ "'").
Definition IndexError (msg : string) : exn :=
  MkExn FromException "IndexError" msg.
Definition ZeroDivisionError : exn :=
  MkExn FromException "ZeroDivisionError" "division by zero".
Definition OverflowError : exn :=
  MkExn FromException "OverflowError" "integer division result too large for a float".

(** [d[key]] *)
Definition getitem (d : gmap string pyval) (key : string) : outcome pyval :=
  match d !! key with
  | Some v => Returns v
  | None => Raises (KeyError key)
  end.

(** [n / d] on Python integers: the correctly rounded binary64 quotient. *)
Definition Z2SF (n : Z) : spec_float :=
  match n with
  | Z0 => S754_zero false
  | Zpos p => S754_finite false p 0
  | Zneg p => S754_finite true p 0
  end.

Definition truediv (n d : Z) : outcome spec_float :=
  if d =? 0 then Raises ZeroDivisionError
  else match SFdiv 53 1024 (Z2SF n) (Z2SF d) with
       | S754_infinity _ => Raises OverflowError
       | q => Returns q
       end.

(** ** Tensors

    A sample is a float32 ([spec_float] of precision 24); [+] on tensors
    of one shape adds them sample by sample. *)

Abbreviation sample := spec_float (only parsing).
Abbreviation channel := (list sample) (only parsing).
Abbreviation waveform := (list (list sample)) (only parsing).

Definition f32_add (x y : sample) : sample := SFadd 24 128 x y.

Section Tensor.
Context {A : Type}.

(** [t.shape[0]] and [t.shape[1]] of a two-dimensional tensor. *)
Definition shape0 (t : list (list A)) : Z := Z.of_nat (length t).
Definition shape1 (t : list (list A)) : Z :=
  match t with
  | [] => 0
  | row :: _ => Z.of_nat (length row)
  end.

(** [l] laid out [k] times in a row. *)
Definition tile {B : Type} (k : nat) (l : list B) : list B :=
  concat (replicate k l).

(** [t.repeat(k0, k1)]: [k0] copies along dimension 0, [k1] along
    dimension 1. *)
Definition tensor_repeat (k0 k1 : nat) (t : list (list A)) : list (list A) :=
  tile k0 (map (tile k1) t).

(** [t[:n]] *)
Definition slice_to {B : Type} (n : nat) (t : list B) : list B := take n t.

(** [t.unsqueeze(0)] *)
Definition unsqueeze0 {B : Type} (t : B) : list B := [t].

(** [t[i]] for a constant index [i >= 0]. *)
Definition index {B : Type} (t : list B) (i : nat) : outcome B :=
  match t !! i with
  | Some x => Returns x
  | None => Raises (IndexError "index out of range")
  end.

(** [t.T] of a two-dimensional array. *)
Fixpoint transpose (t : list (list A)) : list (list A) :=
  match t with
  | [] => []
  | [row] => map (fun x => [x]) row
  | row :: rest => zip_with cons row (transpose rest)
  end.

(** rows of equal length [n] *)
Definition rectangular (n : nat) (t : list (list A)) : Prop :=
  Forall (fun row => length row = n) t.
End Tensor.

(** [a + b] for two tensors of shape [channels, samples]. *)
Definition tensor_add (a b : waveform) : waveform :=
  zip_with (zip_with f32_add) a b.

(** [t[c][i]] where it exists *)
Definition sample_at (t : waveform) (c i : nat) : option sample :=
  row ← t !! c; row !! i.

(** [t.shape == (C, N)] *)
Definition shape_is (C N : nat) (t : waveform) : Prop :=
  length t = C /\ rectangular N t.

(** [f x] for every [x] of [l] in turn, stopping at the first exception. *)
Fixpoint mapM {A B : Type} (f : A -> outcome B) (l : list A) : outcome (list B) :=
  match l with
  | [] => Returns []
  | x :: l' =>
      let* y := f x in
      let* ys := mapM f l' in
      Returns (y :: ys)
  end.

(** ** The libraries the service calls

    [torchaudio.transforms.Resample] filters along the last dimension: each
    channel is convolved on its own, which [resample_channel] stands for. *)
Class AudioLibs : Type := {
  (* base64.b64decode(s) *)
  b64decode : pyval -> outcome (list Byte.byte);
  (* base64.b64encode(b).decode("utf-8") *)
  b64encode : list Byte.byte -> outcome string;
  (* torchaudio.load(io.BytesIO(b)) *)
  torchaudio_load : list Byte.byte -> outcome (waveform * Z);
  (* torchaudio.transforms.Resample(orig_freq, new_freq) *)
  resampler : Type;
  Resample : Z -> Z -> outcome resampler;
  resample_channel : resampler -> channel -> outcome channel;
  (* torch.cuda.is_available() *)
  cuda_is_available : bool;
  (* demucs.pretrained.get_model(name), apply_model(model, mix, device=...) *)
  model : Type;
  get_model : string -> outcome model;
  apply_model : model -> list waveform -> string -> outcome (list (list waveform));
  (* sf.write(buffer, data, samplerate, format="WAV"); buffer.read() *)
  sf_write : list (list sample) -> Z -> outcome (list Byte.byte)
}.

(** The instance of [VoiceIsolator] that [load_model] has set up. *)
Record VoiceIsolator `{AudioLibs} : Type := {
  self_device : string;
  self_model : model
}.

Section Service.
Context `{L : AudioLibs}.

(** [VoiceIsolator.load_model], run once when the container starts. *)
Definition load_model : outcome VoiceIsolator :=
  let device := if cuda_is_available then "cuda" else "cpu" in
  let* m := get_model "htdemucs_ft" in
  Returns {| self_device := device; self_model := m |}.

(** [resampler(waveform)], one call on the whole tensor. The resampler
    first flattens the leading dimensions with [view(-1, time)], which
    torch refuses with a [RuntimeError] for a tensor without elements: a
    waveform without channels makes the call raise. With channels, each
    one is filtered on its own. *)
Definition resampler_call (r : resampler) (w : waveform) : outcome waveform :=
  match w with
  | [] => Raises (MkExn FromException "RuntimeError"
                    "cannot reshape tensor of 0 elements into shape [-1, 0]")
  | _ :: _ => mapM (resample_channel r) w
  end.

(** Lines 81-85: resample to the model's expected sample rate. *)
Definition resample_to_model_rate (w : waveform) (sample_rate : Z)
    : outcome (waveform * Z) :=
  if negb (sample_rate =? 44100) then
    let* r := Resample sample_rate 44100 in
    let* w := resampler_call r w in
    Returns (w, 44100)
  else Returns (w, sample_rate).

(** Lines 87-91: ensure stereo. *)
Definition ensure_stereo (w : waveform) : waveform :=
  if shape0 w =? 1 then tensor_repeat 2 1 w
  else if shape0 w >? 2 then slice_to 2 w
  else w.

(** Lines 81-91, the normalization of the loaded audio. *)
Definition normalize (w : waveform) (sample_rate : Z) : outcome (waveform * Z) :=
  let* (w, sample_rate) := resample_to_model_rate w sample_rate in
  Returns (ensure_stereo w, sample_rate).

(** Lines 108-112: [sources] is the model output of shape
    [batch, num_sources, channels, samples]; returns
    [(vocals, accompaniment)]. *)
Definition mix_down (sources : list (list waveform)) : outcome (waveform * waveform) :=
  let* sources := index sources 0 in
  let* vocals := index sources 3 in
  let* s0 := index sources 0 in
  let* s1 := index sources 1 in
  let* s2 := index sources 2 in
  let accompaniment := tensor_add (tensor_add s0 s1) s2 in
  Returns (vocals, accompaniment).

(** Lines 115-119, the closure [encode_audio]; [sample_rate] is the
    variable it captures. *)
Definition encode_audio (sample_rate : Z) (audio_np : waveform) : outcome string :=
  let* wav := sf_write (transpose audio_np) sample_rate in
  b64encode wav.

(** [VoiceIsolator.isolate_voice], lines 74-94: the batch handed to the
    model, and the sample rate. *)
Definition model_input (audio_base64 : pyval) : outcome (list waveform * Z) :=
  let* audio_bytes := b64decode audio_base64 in
  let* (w, sample_rate) := torchaudio_load audio_bytes in
  let* (w, sample_rate) := normalize w sample_rate in
  Returns (unsqueeze0 w, sample_rate).

(** Lines 74-112: [(vocals, accompaniment, sample_rate)]. *)
Definition separate (self : VoiceIsolator) (audio_base64 : pyval)
    : outcome (waveform * waveform * Z) :=
  let* (w, sample_rate) := model_input audio_base64 in
  let* sources := apply_model (self_model self) w (self_device self) in
  let* (vocals, accompaniment) := mix_down sources in
  Returns (vocals, accompaniment, sample_rate).

(** Lines 74-129, the whole method. *)
Definition isolate_voice (self : VoiceIsolator) (audio_base64 : pyval)
    : outcome (gmap string pyval) :=
  let* (vocals, accompaniment, sample_rate) := separate self audio_base64 in
  let* vocals_base64 := encode_audio sample_rate vocals in
  let* accompaniment_base64 := encode_audio sample_rate accompaniment in
  let* duration_seconds := truediv (shape1 vocals) sample_rate in
  Returns {[ "vocals_base64" := PStr vocals_base64;
             "accompaniment_base64" := PStr accompaniment_base64;
             "sample_rate" := PInt sample_rate;
             "duration_seconds" := PFloat duration_seconds ]}.

Definition failure (message : string) : gmap string pyval :=
  {[ "success" := PBool false; "error" := PStr message ]}.

(** [isolate_voice_endpoint], the body of its [try] (lines 153-172).
    [isolator] is the warm instance that [VoiceIsolator()] and [.remote]
    reach. *)
Definition endpoint_body (isolator : VoiceIsolator)
    (request : gmap string pyval) : outcome (gmap string pyval) :=
  let audio_base64 := get request "audio_base64" PNone in
  let return_accompaniment := get request "return_accompaniment" (PBool false) in
  if negb (truthy audio_base64) then
    Returns (failure "audio_base64 is required")
  else
    let* result := isolate_voice isolator audio_base64 in
    let* vocals_base64 := getitem result "vocals_base64" in
    let* duration_seconds := getitem result "duration_seconds" in
    let response :=
      {[ "success" := PBool true;
         "vocals_base64" := vocals_base64;
         "duration_seconds" := duration_seconds ]} in
    if truthy return_accompaniment then
      let* accompaniment_base64 := getitem result "accompaniment_base64" in
      Returns (<["accompaniment_base64" := accompaniment_base64]> response)
    else Returns response.

(** [isolate_voice_endpoint] (lines 152-175). *)
Definition isolate_voice_endpoint (isolator : VoiceIsolator)
    (request : gmap string pyval) : outcome (gmap string pyval) :=
  try_except_Exception
    (endpoint_body isolator request)
    (fun e => Returns (failure (exn_str e))).

(** A channel after the resampling step: resampled when the rate of the
    input is not 44100 Hz, as it is otherwise. *)
Definition resampled (sample_rate : Z) (c : channel) : outcome channel :=
  if negb (sample_rate =? 44100) then
    let* r := Resample sample_rate 44100 in
    resample_channel r c
  else Returns c.
End Service.

(** [m] raises nothing that [except Exception] would let through. *)
Definition raises_only_Exception {A : Type} (m : outcome A) : Prop :=
  forall e, m = Raises e -> isinstance_Exception e = true.

(** Every exception a library call raises derives from [Exception]. *)
Record libs_raise_only_Exception `{L : AudioLibs} : Prop := {
  b64decode_exc : forall v, raises_only_Exception (b64decode v);
  b64encode_exc : forall b, raises_only_Exception (b64encode b);
  torchaudio_load_exc : forall b, raises_only_Exception (torchaudio_load b);
  Resample_exc : forall o n, raises_only_Exception (Resample o n);
  resample_channel_exc : forall r c, raises_only_Exception (resample_channel r c);
  apply_model_exc : forall m w d, raises_only_Exception (apply_model m w d);
  sf_write_exc : forall a sr, raises_only_Exception (sf_write a sr)
}.
Arguments libs_raise_only_Exception L : clear implicits.

(** ** The local entry point *)

Section LocalEntrypoint.
Context `{L : AudioLibs}.

(** [test_isolation] (lines 186-212). [tone] is the array that lines
    193-198 compute with [np.linspace] and [np.sin]; [np.stack([tone, tone])]
    is the two-row array [[tone; tone]]. The value returned is the pair
    that the final [print] formats: [result.get('success')] and
    [result.get('duration_seconds')]. *)
Definition test_isolation (isolator : VoiceIsolator) (tone : channel)
    : outcome (pyval * pyval) :=
  let sample_rate := 44100 in
  let stereo := [tone; tone] in
  let* wav := sf_write (transpose stereo) sample_rate in
  let* audio_base64 := b64encode wav in
  let* result :=
    isolate_voice_endpoint isolator {[ "audio_base64" := PStr audio_base64 ]} in
  Returns (get result "success" PNone, get result "duration_seconds" PNone).
End LocalEntrypoint.

(** ** A test double for the libraries

    The payload is its own base64 text; a file holds one channel at
    22050 Hz; resampling repeats every sample; the model is handed in. *)
Module Stub.

Definition byte_sample (b : Byte.byte) : sample :=
  binary_normalize 24 128 (Z.of_N (Byte.to_N b)) 0 false.

(** one byte per sample of the file: its binary exponent *)
Definition sample_byte (x : sample) : Byte.byte :=
  match x with
  | S754_finite _ _ e =>
      match Byte.of_N (Z.to_N (e + 64)) with
      | Some b => b
      | None => Byte.x00
      end
  | _ => Byte.x00
  end.

Definition libs (inference : list waveform -> outcome (list (list waveform)))
    : AudioLibs := {|
  b64decode v :=
    match v with
    | PStr s => Returns (String.list_byte_of_string s)
    | _ => Raises (MkExn FromException "TypeError"
                     "argument should be a bytes-like object or ASCII string")
    end;
  b64encode b := Returns (String.string_of_list_byte b);
  torchaudio_load b := Returns ([map byte_sample b], 22050);
  resampler := unit;
  Resample orig_freq new_freq := Returns tt;
  resample_channel _ c := Returns (flat_map (fun x => [x; x]) c);
  cuda_is_available := false;
  model := unit;
  get_model _ := Returns tt;
  apply_model _ mix _ := inference mix;
  sf_write data _ := Returns (map sample_byte (concat data))
|}.

(** every stem is the mix itself *)
Definition echo (mix : list waveform) : outcome (list (list waveform)) :=
  Returns (map (fun w => [w; w; w; w]) mix).

(** the process is interrupted during inference *)
Definition interrupted (mix : list waveform) : outcome (list (list waveform)) :=
  Raises (MkExn FromBaseExceptionOnly "KeyboardInterrupt" "").

Definition isolator inference : @VoiceIsolator (libs inference) :=
  @Build_VoiceIsolator (libs inference) "cpu" tt.

Definition one : sample := S754_finite false 8388608 (-23).
Definition two : sample := S754_finite false 8388608 (-22).
Definition three : sample := S754_finite false 12582912 (-22).
Definition six : sample := S754_finite false 12582912 (-21).

(** Two bytes of audio: four samples per channel once at 44100 Hz. *)
Definition request_plain : gmap string pyval :=
  {[ "audio_base64" := PStr "ab" ]}.

Definition request_with_accompaniment : gmap string pyval :=
  {[ "audio_base64" := PStr "ab"; "return_accompaniment" := PBool true ]}.

Definition request_not_text : gmap string pyval :=
  {[ "audio_base64" := PInt 5 ]}.

Definition request_empty_audio : gmap string pyval :=
  {[ "audio_base64" := PStr ""; "return_accompaniment" := PBool true ]}.

Definition request_no_audio : gmap string pyval :=
  {[ "return_accompaniment" := PBool true ]}.

(** what the model is given for the payload ["ab"] *)
Definition mix_ab : waveform :=
  [map byte_sample [Byte.x61; Byte.x61; Byte.x62; Byte.x62];
   map byte_sample [Byte.x61; Byte.x61; Byte.x62; Byte.x62]].

Definition duration_4_samples : spec_float :=
  SFdiv 53 1024 (Z2SF 4) (Z2SF 44100).

Definition response_plain : gmap string pyval :=
  {[ "success" := PBool true;
     "vocals_base64" := PStr "////////";
     "duration_seconds" := PFloat duration_4_samples ]}.

Definition response_with_accompaniment : gmap string pyval :=
  <["accompaniment_base64" := PStr "11111111"]> response_plain.

Definition result_of_ab : gmap string pyval :=
  {[ "vocals_base64" := PStr "////////";
     "accompaniment_base64" := PStr "11111111";
     "sample_rate" := PInt 44100;
     "duration_seconds" := PFloat duration_4_samples ]}.

End Stub.

(** A second test double: as [Stub.libs Stub.echo], but the WAV writer
    refuses a sample of magnitude 256 or more. *)
Module Fixture.

Definition too_loud (x : sample) : bool :=
  match x with
  | S754_finite _ _ e => -16 <? e
  | S754_infinity _ => true
  | _ => false
  end.

Definition clipping_libs : AudioLibs := {|
  b64decode := @b64decode (Stub.libs Stub.echo);
  b64encode := @b64encode (Stub.libs Stub.echo);
  torchaudio_load := @torchaudio_load (Stub.libs Stub.echo);
  resampler := unit;
  Resample orig_freq new_freq := Returns tt;
  resample_channel _ c := Returns (flat_map (fun x => [x; x]) c);
  cuda_is_available := false;
  model := unit;
  get_model _ := Returns tt;
  apply_model _ mix _ := Stub.echo mix;
  sf_write data _ :=
    if existsb too_loud (concat data)
    then Raises (MkExn FromException "RuntimeError" "sample out of range")
    else Returns (map Stub.sample_byte (concat data))
|}.

(** A third test double: as [Stub.libs Stub.echo], but the resampler
    refuses a channel without samples, as the one of torchaudio does. *)
Definition strict_libs : AudioLibs := {|
  b64decode := @b64decode (Stub.libs Stub.echo);
  b64encode := @b64encode (Stub.libs Stub.echo);
  torchaudio_load := @torchaudio_load (Stub.libs Stub.echo);
  resampler := unit;
  Resample orig_freq new_freq := Returns tt;
  resample_channel _ c :=
    match c with
    | [] => Raises (MkExn FromException "RuntimeError"
                      "cannot reshape tensor of 0 elements into shape [-1, 0]")
    | _ :: _ => Returns (flat_map (fun x => [x; x]) c)
    end;
  cuda_is_available := false;
  model := unit;
  get_model _ := Returns tt;
  apply_model _ mix _ := Stub.echo mix;
  sf_write := @sf_write (Stub.libs Stub.echo)
|}.

Definition clipping_isolator : @VoiceIsolator clipping_libs :=
  @Build_VoiceIsolator clipping_libs "cpu" tt.

(** what the test double loads from the payload ["ab"] *)
Definition loaded_ab : waveform := [map Stub.byte_sample [Byte.x61; Byte.x62]].

(** a request with a field the handler does not know *)
Definition request_with_extra : gmap string pyval :=
  <["duration_seconds" := PInt 5]> Stub.request_plain.

(** an empty file: one channel without samples *)
Definition result_of_empty : gmap string pyval :=
  {[ "vocals_base64" := PStr "";
     "accompaniment_base64" := PStr "";
     "sample_rate" := PInt 44100;
     "duration_seconds" := PFloat (S754_zero false) ]}.

End Fixture.

(** ** Sanity checks of the embedding *)

Example truediv_two_seconds :
  truediv 88200 44100 = Returns (S754_finite false 4503599627370496 (-51)).
Proof. vm_compute. reflexivity. Qed.

Example truediv_third :
  truediv 1 3 = Returns (S754_finite false 6004799503160661 (-54)).
Proof. vm_compute. reflexivity. Qed.

(** [(2**53 + 1) / 1 == 2.0**53]: ties go to the even mantissa. *)
Example truediv_rounds_half_even :
  truediv (2 ^ 53 + 1) 1 = Returns (S754_finite false 4503599627370496 1).
Proof. vm_compute. reflexivity. Qed.

Example truediv_by_zero : truediv 7 0 = Raises ZeroDivisionError.
Proof. reflexivity. Qed.

Example load_model_gives_isolator inference :
  @load_model (Stub.libs inference) = Returns (Stub.isolator inference).
Proof. reflexivity. Qed.

(** ** The error monad *)

Lemma bind_Returns_inv {A B : Type} (m : outcome A) (k : A -> outcome B) (b : B) :
  bind m k = Returns b -> exists a, m = Returns a /\ k a = Returns b.
Proof. destruct m as [a|e]; simpl; intros H; [eauto | discriminate]. Qed.

Lemma bind_Raises_inv {A B : Type} (m : outcome A) (k : A -> outcome B) (e : exn) :
  bind m k = Raises e ->
  m = Raises e \/ exists a, m = Returns a /\ k a = Raises e.
Proof. destruct m as [a|e']; simpl; intros H; [eauto | left; congruence]. Qed.

Lemma mapM_Returns_inv {A B : Type} (f : A -> outcome B) (l : list A) (l' : list B) :
  mapM f l = Returns l' -> Forall2 (fun x y => f x = Returns y) l l'.
Proof.
  revert l'. induction l as [|x l IH]; simpl; intros l' H.
  - injection H as <-. constructor.
  - apply bind_Returns_inv in H as (y & Hy & H).
    apply bind_Returns_inv in H as (ys & Hys & H).
    injection H as <-. constructor; auto.
Qed.

(** ** Normalization (lines 81-91) *)

Section Normalization.
Context `{L : AudioLibs}.

Lemma tile_once {B : Type} (l : list B) : tile 1 l = l.
Proof. unfold tile. simpl. apply app_nil_r. Qed.

Lemma ensure_stereo_mono (c : channel) : ensure_stereo [c] = [c; c].
Proof. unfold ensure_stereo, tensor_repeat. simpl. now rewrite !tile_once. Qed.

Lemma ensure_stereo_stereo (c0 c1 : channel) : ensure_stereo [c0; c1] = [c0; c1].
Proof. reflexivity. Qed.

Lemma ensure_stereo_many (c0 c1 c2 : channel) (rest : waveform) :
  ensure_stereo (c0 :: c1 :: c2 :: rest) = [c0; c1].
Proof.
  unfold ensure_stereo, shape0, slice_to.
  replace (Z.of_nat (length (c0 :: c1 :: c2 :: rest)) =? 1) with false
    by (symmetry; apply Z.eqb_neq; simpl length; lia).
  replace (Z.of_nat (length (c0 :: c1 :: c2 :: rest)) >? 2) with true
    by (symmetry; apply Z.gtb_lt; simpl length; lia).
  reflexivity.
Qed.

Lemma ensure_stereo_shape (w : waveform) :
  1 <= shape0 w -> shape0 (ensure_stereo w) = 2.
Proof.
  destruct w as [|c0 [|c1 [|c2 rest]]]; intros Hw.
  - unfold shape0 in Hw. simpl in Hw. lia.
  - now rewrite ensure_stereo_mono.
  - now rewrite ensure_stereo_stereo.
  - now rewrite ensure_stereo_many.
Qed.

(** The resampling step keeps the rate of a 44100 Hz input and its
    samples, and sets the rate to 44100 otherwise. *)
Lemma resample_at_model_rate (w : waveform) :
  resample_to_model_rate w 44100 = Returns (w, 44100).
Proof. reflexivity. Qed.

Lemma resample_other_rate (w : waveform) (sample_rate : Z) :
  sample_rate <> 44100 ->
  resample_to_model_rate w sample_rate =
    (let* r := Resample sample_rate 44100 in
     let* w := resampler_call r w in
     Returns (w, 44100)).
Proof.
  intros Hsr. unfold resample_to_model_rate.
  apply Z.eqb_neq in Hsr. now rewrite Hsr.
Qed.

Lemma resampler_call_channels (r : resampler) (w : waveform) :
  w <> [] -> resampler_call r w = mapM (resample_channel r) w.
Proof. destruct w; [congruence | reflexivity]. Qed.

Lemma resampler_call_Returns_inv (r : resampler) (w wr : waveform) :
  resampler_call r w = Returns wr ->
  w <> [] /\ mapM (resample_channel r) w = Returns wr.
Proof.
  destruct w; [discriminate|]. intros H. split; [discriminate | exact H].
Qed.

Lemma resample_Returns_inv (w wr : waveform) (sample_rate sr' : Z) :
  resample_to_model_rate w sample_rate = Returns (wr, sr') ->
  sr' = 44100 /\ Forall2 (fun c o => resampled sample_rate c = Returns o) w wr.
Proof.
  unfold resample_to_model_rate, resampled.
  destruct (sample_rate =? 44100) eqn:Hsr; simpl; intros H.
  - apply Z.eqb_eq in Hsr. injection H as <- <-. split; [easy|].
    induction w; constructor; auto.
  - apply bind_Returns_inv in H as (r & Hr & H).
    apply bind_Returns_inv in H as (w1 & Hw1 & H).
    injection H as <- <-. split; [easy|].
    apply resampler_call_Returns_inv in Hw1 as [_ Hw1].
    apply mapM_Returns_inv in Hw1. rewrite Hr. simpl.
    exact Hw1.
Qed.

Lemma normalize_Raises (w : waveform) (sample_rate : Z) (e : exn) :
  normalize w sample_rate = Raises e <->
  resample_to_model_rate w sample_rate = Raises e.
Proof.
  unfold normalize.
  destruct (resample_to_model_rate w sample_rate) as [[wr sr']|e']; simpl.
  - split; discriminate.
  - reflexivity.
Qed.

Lemma normalize_Returns_inv (w w' : waveform) (sample_rate sr' : Z) :
  normalize w sample_rate = Returns (w', sr') ->
  exists wr, resample_to_model_rate w sample_rate = Returns (wr, 44100) /\
             w' = ensure_stereo wr /\ sr' = 44100.
Proof.
  unfold normalize. intros H.
  apply bind_Returns_inv in H as ([wr sr1] & Hr & H).
  injection H as <- <-.
  destruct (resample_Returns_inv _ _ _ _ Hr) as [-> _]. eauto.
Qed.

Lemma mapM_length {A B : Type} (f : A -> outcome B) (l : list A) (l' : list B) :
  mapM f l = Returns l' -> length l' = length l.
Proof.
  intros H. apply mapM_Returns_inv in H. symmetry.
  exact (Forall2_length _ _ _ H).
Qed.

(** C1, as the code has it. For every input with at least one channel:
    at 44100 Hz the normalization returns, with exactly 2 channels at
    44100 Hz. At any other rate its outcome is that of the two calls of
    the audio library, the construction of the resampler and its run over
    the channels: when both return, the normalization returns, with
    exactly 2 channels at 44100 Hz; when one raises, the normalization
    raises that exception. Whenever it returns, the buffer, with a batch
    dimension in front, is what the model is given. *)
Theorem normalize_stereo_at_model_rate (w : waveform) (sample_rate : Z) :
  1 <= shape0 w ->
  (sample_rate = 44100 ->
   exists w', normalize w sample_rate = Returns (w', 44100) /\
              shape0 w' = 2) /\
  (sample_rate <> 44100 ->
   match Resample sample_rate 44100 with
   | Raises e => normalize w sample_rate = Raises e
   | Returns r =>
       match mapM (resample_channel r) w with
       | Raises e => normalize w sample_rate = Raises e
       | Returns wr =>
           exists w', normalize w sample_rate = Returns (w', 44100) /\
                      w' = ensure_stereo wr /\ shape0 w' = 2
       end
   end) /\
  forall audio_base64 audio_bytes,
    b64decode audio_base64 = Returns audio_bytes ->
    torchaudio_load audio_bytes = Returns (w, sample_rate) ->
    match model_input audio_base64 with
    | Returns (batch, sr') =>
        exists w', batch = [w'] /\ shape0 w' = 2 /\ sr' = 44100 /\
                   normalize w sample_rate = Returns (w', sr')
    | Raises e => normalize w sample_rate = Raises e
    end.
Proof.
  intros Hw.
  assert (Hne : w <> []) by (intros ->; unfold shape0 in Hw; simpl in Hw; lia).
  split; [|split].
  - intros ->. exists (ensure_stereo w).
    split; [reflexivity | now apply ensure_stereo_shape].
  - intros Hsr. unfold normalize.
    rewrite (resample_other_rate w sample_rate Hsr).
    destruct (Resample sample_rate 44100) as [r|e]; simpl; [|reflexivity].
    rewrite (resampler_call_channels r w Hne).
    destruct (mapM (resample_channel r) w) as [wr|e] eqn:Hwr; simpl;
      [|reflexivity].
    exists (ensure_stereo wr). repeat split.
    apply ensure_stereo_shape. apply mapM_length in Hwr.
    unfold shape0 in *. lia.
  - intros audio_base64 audio_bytes Hdec Hload.
    unfold model_input. rewrite Hdec. simpl. rewrite Hload. simpl.
    destruct (normalize w sample_rate) as [[w' sr']|e] eqn:Hn; simpl;
      [|reflexivity].
    apply normalize_Returns_inv in Hn as (wr & Hr & -> & ->).
    exists (ensure_stereo wr). repeat split.
    apply ensure_stereo_shape.
    apply resample_Returns_inv in Hr as [_ Hall].
    apply Forall2_length in Hall. unfold shape0 in *. lia.
Qed.

(** C7. With more than 2 channels, the output is exactly two channels:
    channel 0 and channel 1 of the input, each after the resampling step;
    the others are dropped and nothing is mixed. *)
Theorem normalize_keeps_first_two_channels (w : waveform) (sample_rate : Z) :
  2 < shape0 w ->
  match normalize w sample_rate with
  | Returns (w', sr') =>
      exists c0 c1 o0 o1,
        w !! 0%nat = Some c0 /\ w !! 1%nat = Some c1 /\
        resampled sample_rate c0 = Returns o0 /\
        resampled sample_rate c1 = Returns o1 /\
        w' = [o0; o1]
  | Raises e => resample_to_model_rate w sample_rate = Raises e
  end.
Proof.
  intros Hw.
  destruct (normalize w sample_rate) as [[w' sr']|e] eqn:Hn.
  - apply normalize_Returns_inv in Hn as (wr & Hr & -> & ->).
    apply resample_Returns_inv in Hr as [_ Hall].
    destruct w as [|c0 [|c1 [|c2 rest]]];
      try (unfold shape0 in Hw; simpl in Hw; lia).
    inversion Hall as [|? o0 ? wr1 H0 Hall1]; subst.
    inversion Hall1 as [|? o1 ? wr2 H1 Hall2]; subst.
    inversion Hall2 as [|? o2 ? wr3 H2 Hall3]; subst.
    exists c0, c1, o0, o1. rewrite ensure_stereo_many. auto.
  - now apply normalize_Raises.
Qed.

(** C8. With one channel, both output channels are that channel after the
    resampling step. *)
Theorem normalize_duplicates_mono (w : waveform) (sample_rate : Z) :
  shape0 w = 1 ->
  match normalize w sample_rate with
  | Returns (w', sr') =>
      exists c o, w = [c] /\ resampled sample_rate c = Returns o /\ w' = [o; o]
  | Raises e => resample_to_model_rate w sample_rate = Raises e
  end.
Proof.
  intros Hw.
  destruct (normalize w sample_rate) as [[w' sr']|e] eqn:Hn.
  - apply normalize_Returns_inv in Hn as (wr & Hr & -> & ->).
    apply resample_Returns_inv in Hr as [_ Hall].
    destruct w as [|c [|c1 rest]];
      try (unfold shape0 in Hw; simpl in Hw; lia).
    inversion Hall as [|? o ? wr1 H0 Hall1]; subst.
    inversion Hall1; subst.
    exists c, o. rewrite ensure_stereo_mono. auto.
  - now apply normalize_Raises.
Qed.

Lemma ensure_stereo_channels (w : waveform) (c : channel) :
  c ∈ ensure_stereo w -> c ∈ w.
Proof.
  destruct w as [|c0 [|c1 [|c2 rest]]].
  - easy.
  - rewrite ensure_stereo_mono, !list_elem_of_In. simpl. tauto.
  - now rewrite ensure_stereo_stereo.
  - rewrite ensure_stereo_many, !list_elem_of_In. simpl. tauto.
Qed.

(** C9. At 44100 Hz the resampling step returns the samples and the rate
    it was given, whatever the resampler would do; past it only the
    channel coercion acts, and every channel it outputs is a channel of
    the input. At any other rate the step is the call of the resampler. *)
Theorem resampling_only_off_model_rate (w : waveform) :
  resample_to_model_rate w 44100 = Returns (w, 44100) /\
  normalize w 44100 = Returns (ensure_stereo w, 44100) /\
  (forall c, c ∈ ensure_stereo w -> c ∈ w) /\
  (shape0 w = 2 -> ensure_stereo w = w) /\
  (forall sample_rate, sample_rate <> 44100 ->
     resample_to_model_rate w sample_rate =
       (let* r := Resample sample_rate 44100 in
        let* w := resampler_call r w in
        Returns (w, 44100))).
Proof.
  split; [reflexivity|]. split; [reflexivity|].
  split; [apply ensure_stereo_channels|].
  split; [|apply resample_other_rate].
  destruct w as [|c0 [|c1 [|c2 rest]]]; unfold shape0; simpl; intros Hw;
    try lia.
  reflexivity.
Qed.
End Normalization.

(** ** Mix-down (lines 106-112) *)

Lemma tensor_add_sample (a b : waveform) (c i : nat) :
  sample_at (tensor_add a b) c i =
    (x ← sample_at a c i; y ← sample_at b c i; Some (f32_add x y)).
Proof.
  unfold sample_at, tensor_add. rewrite lookup_zip_with.
  destruct (a !! c) as [ra|]; simpl; [|reflexivity].
  destruct (b !! c) as [rb|]; simpl.
  - apply lookup_zip_with.
  - now destruct (ra !! i).
Qed.

Lemma tensor_add_shape (C N : nat) (a b : waveform) :
  shape_is C N a -> shape_is C N b -> shape_is C N (tensor_add a b).
Proof.
  unfold shape_is, rectangular, tensor_add. intros [Ha Hra] [Hb Hrb]. split.
  - rewrite length_zip_with. lia.
  - clear Ha Hb. revert b Hrb.
    induction Hra as [|ra a Hlen Hra IH]; intros b Hrb; [constructor|].
    destruct Hrb as [|rb b Hlenb Hrb]; simpl; constructor.
    + rewrite length_zip_with. lia.
    + now apply IH.
Qed.

Lemma index_Returns_inv {B : Type} (t : list B) (i : nat) (x : B) :
  index t i = Returns x -> t !! i = Some x.
Proof. unfold index. destruct (t !! i); intros H; [congruence | discriminate]. Qed.

Lemma mix_down_Returns_inv (sources : list (list waveform)) (vocals acc : waveform) :
  mix_down sources = Returns (vocals, acc) ->
  exists drums bass other more batch_rest,
    sources = (drums :: bass :: other :: vocals :: more) :: batch_rest /\
    acc = tensor_add (tensor_add drums bass) other.
Proof.
  unfold mix_down. intros H.
  apply bind_Returns_inv in H as (stems & Hstems & H).
  apply bind_Returns_inv in H as (v & Hv & H).
  apply bind_Returns_inv in H as (s0 & H0 & H).
  apply bind_Returns_inv in H as (s1 & H1 & H).
  apply bind_Returns_inv in H as (s2 & H2 & H).
  injection H as <- <-.
  apply index_Returns_inv in Hstems, Hv, H0, H1, H2.
  destruct sources as [|stems' batch_rest]; [discriminate|].
  injection Hstems as ->.
  destruct stems as [|d [|b [|o [|v' more]]]]; try discriminate.
  injection Hv as ->. injection H0 as ->. injection H1 as ->. injection H2 as ->.
  eauto 10.
Qed.

Section IsolateVoice.
Context `{L : AudioLibs}.

Lemma model_input_Returns_inv (audio_base64 : pyval)
    (batch : list waveform) (sample_rate : Z) :
  model_input audio_base64 = Returns (batch, sample_rate) ->
  exists audio_bytes w sr0 w',
    b64decode audio_base64 = Returns audio_bytes /\
    torchaudio_load audio_bytes = Returns (w, sr0) /\
    normalize w sr0 = Returns (w', sample_rate) /\
    batch = [w'] /\ sample_rate = 44100.
Proof.
  unfold model_input. intros H.
  apply bind_Returns_inv in H as (audio_bytes & Hdec & H).
  apply bind_Returns_inv in H as ([w sr0] & Hload & H).
  apply bind_Returns_inv in H as ([w' sr'] & Hnorm & H).
  injection H as <- <-.
  exists audio_bytes, w, sr0, w'.
  destruct (normalize_Returns_inv _ _ _ _ Hnorm) as (_ & _ & _ & Hsr).
  auto.
Qed.

Lemma separate_Returns_inv (self : VoiceIsolator) (audio_base64 : pyval)
    (vocals acc : waveform) (sample_rate : Z) :
  separate self audio_base64 = Returns (vocals, acc, sample_rate) ->
  exists batch sources,
    model_input audio_base64 = Returns (batch, sample_rate) /\
    apply_model (self_model self) batch (self_device self) = Returns sources /\
    mix_down sources = Returns (vocals, acc) /\
    sample_rate = 44100.
Proof.
  unfold separate. intros H.
  apply bind_Returns_inv in H as ([batch sr] & Hin & H).
  apply bind_Returns_inv in H as (sources & Hmodel & H).
  apply bind_Returns_inv in H as ([v a] & Hmix & H).
  injection H as <- <- <-.
  exists batch, sources.
  destruct (model_input_Returns_inv _ _ _ Hin) as (_ & _ & _ & _ & _ & _ & _ & _ & Hsr).
  auto.
Qed.

Lemma isolate_voice_Returns_inv (self : VoiceIsolator) (audio_base64 : pyval)
    (result : gmap string pyval) :
  isolate_voice self audio_base64 = Returns result ->
  exists vocals acc sample_rate vb ab d,
    separate self audio_base64 = Returns (vocals, acc, sample_rate) /\
    encode_audio sample_rate vocals = Returns vb /\
    encode_audio sample_rate acc = Returns ab /\
    truediv (shape1 vocals) sample_rate = Returns d /\
    result = {[ "vocals_base64" := PStr vb;
                "accompaniment_base64" := PStr ab;
                "sample_rate" := PInt sample_rate;
                "duration_seconds" := PFloat d ]}.
Proof.
  unfold isolate_voice. intros H.
  apply bind_Returns_inv in H as ([[vocals acc] sr] & Hsep & H).
  apply bind_Returns_inv in H as (vb & Hvb & H).
  apply bind_Returns_inv in H as (ab & Hab & H).
  apply bind_Returns_inv in H as (d & Hd & H).
  injection H as <-.
  exists vocals, acc, sr, vb, ab, d. auto.
Qed.

(** C2. The model output holds, in this order, the stems drums, bass,
    other and vocals. The vocals of the mix-down are the stem of index 3;
    the accompaniment has, at every channel and sample, the float32 sum
    of the stems of index 0, 1 and 2 there, and their shape. Those two
    buffers, WAV-encoded, are what [isolate_voice] returns. *)
Theorem mix_down_vocals_and_accompaniment
    (drums bass other vocals : waveform) (more : list waveform)
    (batch_rest : list (list waveform)) :
  (exists acc,
     mix_down ((drums :: bass :: other :: vocals :: more) :: batch_rest)
       = Returns (vocals, acc) /\
     (forall c i,
        sample_at acc c i =
          (x ← sample_at drums c i; y ← sample_at bass c i;
           z ← sample_at other c i; Some (f32_add (f32_add x y) z))) /\
     (forall C N,
        shape_is C N drums -> shape_is C N bass -> shape_is C N other ->
        shape_is C N acc)) /\
  (forall (self : VoiceIsolator) audio_base64 batch sample_rate result,
     model_input audio_base64 = Returns (batch, sample_rate) ->
     apply_model (self_model self) batch (self_device self)
       = Returns ((drums :: bass :: other :: vocals :: more) :: batch_rest) ->
     isolate_voice self audio_base64 = Returns result ->
     exists vb ab,
       encode_audio sample_rate vocals = Returns vb /\
       encode_audio sample_rate (tensor_add (tensor_add drums bass) other)
         = Returns ab /\
       result !! "vocals_base64" = Some (PStr vb) /\
       result !! "accompaniment_base64" = Some (PStr ab)).
Proof.
  split.
  - exists (tensor_add (tensor_add drums bass) other).
    split; [reflexivity|]. split.
    + intros c i. rewrite !tensor_add_sample.
      destruct (sample_at drums c i); simpl; [|reflexivity].
      destruct (sample_at bass c i); reflexivity.
    + intros C N Hd Hb Ho. now repeat apply tensor_add_shape.
  - intros self audio_base64 batch sample_rate result Hin Hmodel Hres.
    apply isolate_voice_Returns_inv in Hres
      as (v & a & sr & vb & ab & d & Hsep & Hvb & Hab & _ & ->).
    unfold separate in Hsep. rewrite Hin in Hsep. simpl in Hsep.
    rewrite Hmodel in Hsep. simpl in Hsep. injection Hsep as <- <- <-.
    exists vb, ab. repeat split; auto.
Qed.
End IsolateVoice.

(** ** The request handler (lines 134-175) *)

Section Endpoint.
Context `{L : AudioLibs}.

Lemma failure_success (message : string) :
  failure message !! "success" = Some (PBool false).
Proof. reflexivity. Qed.

Lemma failure_accompaniment (message : string) :
  failure message !! "accompaniment_base64" = None.
Proof. reflexivity. Qed.

(** A response that says [success: true] was built on lines 163-172 from
    a result of [isolate_voice]. *)
Lemma endpoint_success_inv (isolator : VoiceIsolator)
    (request response : gmap string pyval) :
  isolate_voice_endpoint isolator request = Returns response ->
  response !! "success" = Some (PBool true) ->
  exists result vb d,
    truthy (get request "audio_base64" PNone) = true /\
    isolate_voice isolator (get request "audio_base64" PNone) = Returns result /\
    result !! "vocals_base64" = Some vb /\
    result !! "duration_seconds" = Some d /\
    (truthy (get request "return_accompaniment" (PBool false)) = false ->
     response = {[ "success" := PBool true; "vocals_base64" := vb;
                   "duration_seconds" := d ]}) /\
    (truthy (get request "return_accompaniment" (PBool false)) = true ->
     exists ab,
       result !! "accompaniment_base64" = Some ab /\
       response = <["accompaniment_base64" := ab]>
                    {[ "success" := PBool true; "vocals_base64" := vb;
                       "duration_seconds" := d ]}).
Proof.
  unfold isolate_voice_endpoint, try_except_Exception.
  destruct (endpoint_body isolator request) as [r|e] eqn:Hbody.
  - intros H Hok. injection H as ->. revert Hbody. unfold endpoint_body.
    destruct (truthy (get request "audio_base64" PNone)) eqn:Haudio; simpl.
    2:{ intros H. injection H as <-. rewrite failure_success in Hok.
        discriminate. }
    intros H.
    apply bind_Returns_inv in H as (result & Hres & H).
    apply bind_Returns_inv in H as (vb & Hvb & H).
    apply bind_Returns_inv in H as (d & Hd & H).
    exists result, vb, d.
    unfold getitem in Hvb, Hd.
    destruct (result !! "vocals_base64") as [vb'|] eqn:Evb; [|discriminate].
    destruct (result !! "duration_seconds") as [d'|] eqn:Ed; [|discriminate].
    injection Hvb as ->. injection Hd as ->.
    repeat (split; [first [reflexivity | assumption]|]).
    destruct (truthy (get request "return_accompaniment" (PBool false))).
    + split; [intros ?; discriminate|]. intros _.
      apply bind_Returns_inv in H as (ab & Hab & H).
      unfold getitem in Hab.
      destruct (result !! "accompaniment_base64"); [|discriminate].
      injection Hab as ->. injection H as <-. eauto.
    + split; [|intros ?; discriminate]. intros _. now injection H as <-.
  - destruct (isinstance_Exception e); [|discriminate].
    intros H Hok. injection H as <-. rewrite failure_success in Hok.
    discriminate.
Qed.

(** A response that does not say [success: true] is a failure record. *)
Lemma endpoint_Returns_cases (isolator : VoiceIsolator)
    (request response : gmap string pyval) :
  isolate_voice_endpoint isolator request = Returns response ->
  response !! "success" = Some (PBool true) \/
  exists message, response = failure message.
Proof.
  unfold isolate_voice_endpoint, try_except_Exception.
  destruct (endpoint_body isolator request) as [r|e] eqn:Hbody.
  - intros H. injection H as ->. revert Hbody. unfold endpoint_body.
    destruct (truthy (get request "audio_base64" PNone)); simpl.
    2:{ intros H. injection H as <-. right. eauto. }
    intros H.
    apply bind_Returns_inv in H as (result & _ & H).
    apply bind_Returns_inv in H as (vb & _ & H).
    apply bind_Returns_inv in H as (d & _ & H).
    destruct (truthy (get request "return_accompaniment" (PBool false))).
    + apply bind_Returns_inv in H as (ab & _ & H).
      injection H as <-. left. reflexivity.
    + injection H as <-. left. reflexivity.
  - destruct (isinstance_Exception e); [|discriminate].
    intros H. injection H as <-. right. eauto.
Qed.

Lemma truediv_Returns_inv (n d : Z) (q : spec_float) :
  truediv n d = Returns q -> d <> 0 /\ q = SFdiv 53 1024 (Z2SF n) (Z2SF d).
Proof.
  unfold truediv. destruct (d =? 0) eqn:Hd; [discriminate|].
  apply Z.eqb_neq in Hd.
  destruct (SFdiv 53 1024 (Z2SF n) (Z2SF d)); simpl; intros H;
    try discriminate; injection H as <-; auto.
Qed.

(** C3. In every response of a successful run, [duration_seconds] is the
    float quotient of the sample count of the vocals buffer by the sample
    rate, both taken from that run (the rate is 44100): no field of the
    request enters it. *)
Theorem duration_is_sample_count_over_rate (isolator : VoiceIsolator)
    (request response : gmap string pyval) :
  isolate_voice_endpoint isolator request = Returns response ->
  response !! "success" = Some (PBool true) ->
  exists vocals acc sample_rate result,
    separate isolator (get request "audio_base64" PNone)
      = Returns (vocals, acc, sample_rate) /\
    isolate_voice isolator (get request "audio_base64" PNone) = Returns result /\
    result !! "sample_rate" = Some (PInt sample_rate) /\
    sample_rate = 44100 /\
    truediv (shape1 vocals) sample_rate
      = Returns (SFdiv 53 1024 (Z2SF (shape1 vocals)) (Z2SF sample_rate)) /\
    result !! "duration_seconds"
      = Some (PFloat (SFdiv 53 1024 (Z2SF (shape1 vocals)) (Z2SF sample_rate))) /\
    response !! "duration_seconds"
      = Some (PFloat (SFdiv 53 1024 (Z2SF (shape1 vocals)) (Z2SF sample_rate))).
Proof.
  intros Hresp Hok.
  destruct (endpoint_success_inv _ _ _ Hresp Hok)
    as (result & vb & d & _ & Hres & _ & Hd & Hno & Hyes).
  destruct (isolate_voice_Returns_inv _ _ _ Hres)
    as (vocals & acc & sr & vb' & ab & q & Hsep & _ & _ & Hq & Heq).
  exists vocals, acc, sr, result.
  destruct (separate_Returns_inv _ _ _ _ _ Hsep) as (_ & _ & _ & _ & _ & Hsr).
  destruct (truediv_Returns_inv _ _ _ Hq) as [_ Hqv].
  rewrite <- Hqv.
  assert (Hdq : d = PFloat q).
  { assert (Hl : result !! "duration_seconds" = Some (PFloat q))
      by (rewrite Heq; reflexivity).
    congruence. }
  subst d.
  repeat (split; [first [assumption | now rewrite Heq]|]).
  destruct (truthy (get request "return_accompaniment" (PBool false))).
  - destruct (Hyes eq_refl) as (ab' & _ & ->). reflexivity.
  - rewrite (Hno eq_refl). reflexivity.
Qed.

Lemma endpoint_without_audio (isolator : VoiceIsolator)
    (request : gmap string pyval) :
  truthy (get request "audio_base64" PNone) = false ->
  isolate_voice_endpoint isolator request =
    Returns {[ "success" := PBool false;
               "error" := PStr "audio_base64 is required" ]}.
Proof.
  intros Hfalsy.
  unfold isolate_voice_endpoint, endpoint_body. rewrite Hfalsy.
  reflexivity.
Qed.

(** C4. When the request has no [audio_base64] key, the handler returns
    exactly [{success: false, error: "audio_base64 is required"}] and
    raises nothing. *)
Theorem missing_audio_is_structured_failure (isolator : VoiceIsolator)
    (request : gmap string pyval) :
  request !! "audio_base64" = None ->
  isolate_voice_endpoint isolator request =
    Returns {[ "success" := PBool false;
               "error" := PStr "audio_base64 is required" ]}.
Proof.
  intros Hnone. apply endpoint_without_audio.
  unfold get. now rewrite Hnone.
Qed.

(** The values for which [if not v] passes. *)
Lemma falsy_values (v : pyval) :
  truthy v = false <->
  v = PNone \/ v = PBool false \/ v = PInt 0 \/
  (exists s, v = PFloat (S754_zero s)) \/
  v = PStr "" \/ v = PList [] \/ v = PDict ∅.
Proof.
  split.
  - destruct v as [|b|n|x|s|l|d]; simpl; intros H.
    + auto.
    + destruct b; [discriminate | auto].
    + apply negb_false_iff, Z.eqb_eq in H. subst. auto.
    + destruct x; try discriminate. eauto 6.
    + destruct s; [auto 6 | discriminate].
    + destruct l; [auto 7 | discriminate].
    + apply negb_false_iff, Nat.eqb_eq, map_size_empty_iff in H. subst. auto 8.
  - intros [-> | [-> | [-> | [[s ->] | [-> | [-> | ->]]]]]]; reflexivity.
Qed.

(** C10. When [audio_base64] is present with a falsy value (the empty
    string, [None], [False], [0], [0.0], an empty list or dict) the handler
    answers as for an absent key, whatever the libraries do: the test is
    [if not audio_base64] and no decoding is started. *)
Theorem falsy_audio_is_treated_as_missing (isolator : VoiceIsolator)
    (request : gmap string pyval) (v : pyval) :
  request !! "audio_base64" = Some v ->
  truthy v = false ->
  isolate_voice_endpoint isolator request =
    Returns {[ "success" := PBool false;
               "error" := PStr "audio_base64 is required" ]} /\
  isolate_voice_endpoint isolator request =
    isolate_voice_endpoint isolator (delete "audio_base64" request).
Proof.
  intros Hsome Hfalsy.
  rewrite !endpoint_without_audio; [auto| |].
  - unfold get. now rewrite lookup_delete_eq.
  - unfold get. now rewrite Hsome.
Qed.

(** C6. The response holds [accompaniment_base64] exactly when the test
    [if return_accompaniment] passes (for a JSON boolean: when the field is
    [true]) and the run succeeds. With the field [false] or absent, no
    response, successful or not, holds that key. *)
Theorem accompaniment_iff_requested (isolator : VoiceIsolator)
    (request response : gmap string pyval) :
  isolate_voice_endpoint isolator request = Returns response ->
  (is_Some (response !! "accompaniment_base64") <->
     truthy (get request "return_accompaniment" (PBool false)) = true /\
     response !! "success" = Some (PBool true)) /\
  (forall b, request !! "return_accompaniment" = Some (PBool b) ->
     (is_Some (response !! "accompaniment_base64") <->
        b = true /\ response !! "success" = Some (PBool true))) /\
  (request !! "return_accompaniment" = None \/
   request !! "return_accompaniment" = Some (PBool false) ->
     response !! "accompaniment_base64" = None).
Proof.
  intros Hresp.
  assert (Hiff : is_Some (response !! "accompaniment_base64") <->
     truthy (get request "return_accompaniment" (PBool false)) = true /\
     response !! "success" = Some (PBool true)).
  { destruct (endpoint_Returns_cases _ _ _ Hresp) as [Hok | [message ->]].
    - destruct (endpoint_success_inv _ _ _ Hresp Hok)
        as (result & vb & d & _ & _ & _ & _ & Hno & Hyes).
      destruct (truthy (get request "return_accompaniment" (PBool false))).
      + destruct (Hyes eq_refl) as (ab & _ & ->).
        split; [intros _; split; reflexivity | intros _; now exists ab].
      + rewrite (Hno eq_refl).
        split; [intros [x Hx]; discriminate | intros [? _]; discriminate].
    - rewrite failure_accompaniment, failure_success.
      split; [intros [x Hx]; discriminate | intros [_ ?]; discriminate]. }
  split; [exact Hiff|]. split.
  - intros b Hb. rewrite Hiff. unfold get. rewrite Hb. reflexivity.
  - intros Hreq. apply eq_None_not_Some. rewrite Hiff.
    unfold get. destruct Hreq as [-> | ->]; simpl; intros [? _]; discriminate.
Qed.

(** Exceptions the handler's own code raises derive from [Exception]. *)
Lemma roe_Returns {A : Type} (a : A) : raises_only_Exception (Returns a).
Proof. intros e H. discriminate. Qed.

Lemma roe_bind {A B : Type} (m : outcome A) (k : A -> outcome B) :
  raises_only_Exception m ->
  (forall a, raises_only_Exception (k a)) ->
  raises_only_Exception (bind m k).
Proof.
  intros Hm Hk e H. apply bind_Raises_inv in H as [H | (a & _ & H)].
  - now apply Hm.
  - now apply (Hk a).
Qed.

Lemma roe_mapM {A B : Type} (f : A -> outcome B) (l : list A) :
  (forall x, raises_only_Exception (f x)) ->
  raises_only_Exception (mapM f l).
Proof.
  intros Hf. induction l as [|x l IH]; simpl.
  - apply roe_Returns.
  - apply roe_bind; [apply Hf|]. intros y.
    apply roe_bind; [apply IH|]. intros ys. apply roe_Returns.
Qed.

Lemma roe_index {B : Type} (t : list B) (i : nat) :
  raises_only_Exception (index t i).
Proof.
  unfold index. intros e. destruct (t !! i); intros H; [discriminate|].
  now injection H as <-.
Qed.

Lemma roe_getitem (d : gmap string pyval) (key : string) :
  raises_only_Exception (getitem d key).
Proof.
  unfold getitem. intros e. destruct (d !! key); intros H; [discriminate|].
  now injection H as <-.
Qed.

Lemma roe_truediv (n d : Z) : raises_only_Exception (truediv n d).
Proof.
  unfold truediv. intros e. destruct (d =? 0).
  - intros H. now injection H as <-.
  - destruct (SFdiv 53 1024 (Z2SF n) (Z2SF d)); simpl; intros H;
      try discriminate. now injection H as <-.
Qed.

Section WithCooperativeLibs.
Hypothesis HL : libs_raise_only_Exception L.

Lemma roe_normalize (w : waveform) (sample_rate : Z) :
  raises_only_Exception (normalize w sample_rate).
Proof.
  unfold normalize, resample_to_model_rate, resampler_call.
  apply roe_bind; [|intros [w1 sr1]; apply roe_Returns].
  destruct (negb (sample_rate =? 44100)); [|apply roe_Returns].
  apply roe_bind; [apply HL|]. intros r.
  apply roe_bind; [|intros w1; apply roe_Returns].
  destruct w as [|c0 w0].
  - intros e H. now injection H as <-.
  - apply roe_mapM. intros c. apply HL.
Qed.

Lemma roe_mix_down (sources : list (list waveform)) :
  raises_only_Exception (mix_down sources).
Proof.
  unfold mix_down.
  repeat (apply roe_bind; [apply roe_index|]; intros ?).
  apply roe_Returns.
Qed.

Lemma roe_encode_audio (sample_rate : Z) (audio_np : waveform) :
  raises_only_Exception (encode_audio sample_rate audio_np).
Proof.
  unfold encode_audio. apply roe_bind; [apply HL|]. intros wav. apply HL.
Qed.

Lemma roe_isolate_voice (self : VoiceIsolator) (audio_base64 : pyval) :
  raises_only_Exception (isolate_voice self audio_base64).
Proof.
  unfold isolate_voice, separate, model_input.
  apply roe_bind.
  - apply roe_bind.
    + apply roe_bind; [apply HL|]. intros audio_bytes.
      apply roe_bind; [apply HL|]. intros [w sr].
      apply roe_bind; [apply roe_normalize|]. intros [w1 sr1].
      apply roe_Returns.
    + intros [batch sr].
      apply roe_bind; [apply HL|]. intros sources.
      apply roe_bind; [apply roe_mix_down|]. intros [v a].
      apply roe_Returns.
  - intros [[v a] sr].
    apply roe_bind; [apply roe_encode_audio|]. intros vb.
    apply roe_bind; [apply roe_encode_audio|]. intros ab.
    apply roe_bind; [apply roe_truediv|]. intros d.
    apply roe_Returns.
Qed.

Lemma roe_endpoint_body (isolator : VoiceIsolator)
    (request : gmap string pyval) :
  raises_only_Exception (endpoint_body isolator request).
Proof.
  unfold endpoint_body.
  destruct (negb (truthy (get request "audio_base64" PNone)));
    [apply roe_Returns|].
  apply roe_bind; [apply roe_isolate_voice|]. intros result.
  apply roe_bind; [apply roe_getitem|]. intros vb.
  apply roe_bind; [apply roe_getitem|]. intros d.
  destruct (truthy (get request "return_accompaniment" (PBool false)));
    [|apply roe_Returns].
  apply roe_bind; [apply roe_getitem|]. intros ab. apply roe_Returns.
Qed.
End WithCooperativeLibs.

(** C5, as the code has it. [except Exception] is a filter on the class
    of what was raised. An exception of the pipeline that derives from
    [Exception] is turned into [{success: false, error: str(e)}]; one that
    derives from [BaseException] only leaves the handler as it came. The
    handler's own code raises [Exception] instances only, so when the
    libraries do as well, every request gets a response, which either
    says [success: true] or is such a failure record. *)
Theorem endpoint_converts_Exception_instances (isolator : VoiceIsolator)
    (request : gmap string pyval) :
  match endpoint_body isolator request with
  | Returns response =>
      isolate_voice_endpoint isolator request = Returns response
  | Raises e =>
      if isinstance_Exception e
      then isolate_voice_endpoint isolator request
             = Returns {[ "success" := PBool false;
                          "error" := PStr (exn_str e) ]}
      else isolate_voice_endpoint isolator request = Raises e
  end /\
  (libs_raise_only_Exception L ->
   exists response,
     isolate_voice_endpoint isolator request = Returns response /\
     (response !! "success" = Some (PBool true) \/
      exists message,
        response = {[ "success" := PBool false; "error" := PStr message ]})).
Proof.
  split.
  - unfold isolate_voice_endpoint, try_except_Exception.
    destruct (endpoint_body isolator request) as [r|e]; [reflexivity|].
    destruct (isinstance_Exception e); reflexivity.
  - intros HL.
    assert (Hret : exists response,
              isolate_voice_endpoint isolator request = Returns response).
    { unfold isolate_voice_endpoint, try_except_Exception.
      destruct (endpoint_body isolator request) as [r|e] eqn:Hbody; [eauto|].
      rewrite (roe_endpoint_body HL _ _ _ Hbody). eauto. }
    destruct Hret as [response Hresp]. exists response.
    split; [exact Hresp|]. exact (endpoint_Returns_cases _ _ _ Hresp).
Qed.
End Endpoint.

(** ** The theorems at work on the test double *)

Section Instances.
Import Stub.
Local Abbreviation echo_libs := (libs echo).

Lemma echo_libs_cooperative : libs_raise_only_Exception echo_libs.
Proof.
  split; simpl; intros; intros e He; try discriminate.
  destruct v; try discriminate; injection He as <-; reflexivity.
Defined.

Lemma normalize_stereo_at_model_rate_witness :
  1 <= shape0 Fixture.loaded_ab /\
  22050 <> 44100 /\
  @normalize echo_libs Fixture.loaded_ab 22050 = Returns (mix_ab, 44100) /\
  shape0 mix_ab = 2 /\
  exists w', @model_input echo_libs (PStr "ab") = Returns ([w'], 44100) /\
             shape0 w' = 2.
Proof.
  assert (H : 1 <= shape0 Fixture.loaded_ab) by (vm_compute; discriminate).
  assert (Hsr : 22050 <> 44100) by discriminate.
  destruct (normalize_stereo_at_model_rate (L := echo_libs)
              Fixture.loaded_ab 22050 H) as (_ & Hoff & Hin).
  specialize (Hoff Hsr). hnf in Hoff.
  destruct Hoff as (w' & Hn & Hw' & Hshape).
  assert (Hmix : w' = mix_ab) by (rewrite Hw'; reflexivity).
  rewrite Hmix in Hn, Hshape.
  split; [exact H|]. split; [exact Hsr|]. split; [exact Hn|].
  split; [exact Hshape|].
  specialize (Hin (PStr "ab") [Byte.x61; Byte.x62] eq_refl eq_refl).
  destruct (@model_input echo_libs (PStr "ab")) as [[batch sr']|e].
  - destruct Hin as (w0 & -> & Hs0 & -> & _). exists w0. split; [reflexivity|].
    exact Hs0.
  - rewrite Hn in Hin. discriminate Hin.
Defined.

(** C1, as the claim has it, fails: a file of one channel without
    samples at 22050 Hz has a channel, and the resampler raises on it; the
    normalization raises and yields no buffer. *)
Lemma normalize_raises_without_samples :
  1 <= shape0 ([[]] : waveform) /\
  @normalize Fixture.strict_libs [[]] 22050
    = Raises (MkExn FromException "RuntimeError"
                "cannot reshape tensor of 0 elements into shape [-1, 0]") /\
  ~ exists w' sr', @normalize Fixture.strict_libs [[]] 22050 = Returns (w', sr').
Proof.
  assert (H : @normalize Fixture.strict_libs [[]] 22050
              = Raises (MkExn FromException "RuntimeError"
                  "cannot reshape tensor of 0 elements into shape [-1, 0]"))
    by reflexivity.
  split; [vm_compute; discriminate|]. split; [exact H|].
  intros (w' & sr' & Hr). rewrite H in Hr. discriminate.
Qed.

Lemma normalize_keeps_first_two_channels_witness :
  2 < shape0 [[one]; [two]; [three]] /\
  match @normalize echo_libs [[one]; [two]; [three]] 22050 with
  | Returns (w', sr') =>
      exists c0 c1 o0 o1,
        [[one]; [two]; [three]] !! 0%nat = Some c0 /\
        [[one]; [two]; [three]] !! 1%nat = Some c1 /\
        @resampled echo_libs 22050 c0 = Returns o0 /\
        @resampled echo_libs 22050 c1 = Returns o1 /\
        w' = [o0; o1]
  | Raises e =>
      @resample_to_model_rate echo_libs [[one]; [two]; [three]] 22050 = Raises e
  end.
Proof.
  assert (H : 2 < shape0 [[one]; [two]; [three]]) by (vm_compute; reflexivity).
  split; [exact H|].
  exact (normalize_keeps_first_two_channels (L := echo_libs)
           [[one]; [two]; [three]] 22050 H).
Defined.

Lemma normalize_duplicates_mono_witness :
  shape0 [[one; two]] = 1 /\
  match @normalize echo_libs [[one; two]] 22050 with
  | Returns (w', sr') =>
      exists c o, [[one; two]] = [c] /\
                  @resampled echo_libs 22050 c = Returns o /\ w' = [o; o]
  | Raises e => @resample_to_model_rate echo_libs [[one; two]] 22050 = Raises e
  end.
Proof.
  assert (H : shape0 [[one; two]] = 1) by reflexivity.
  split; [exact H|].
  exact (normalize_duplicates_mono (L := echo_libs) [[one; two]] 22050 H).
Defined.

Lemma resampling_only_off_model_rate_witness :
  @normalize echo_libs [[one; two]; [three; one]] 44100
    = Returns ([[one; two]; [three; one]], 44100) /\
  @resample_to_model_rate echo_libs [[one; two]; [three; one]] 22050
    = Returns ([[one; one; two; two]; [three; three; one; one]], 44100).
Proof.
  destruct (resampling_only_off_model_rate (L := echo_libs)
              [[one; two]; [three; one]]) as (_ & Hn & _ & Hs & Hr).
  split.
  - rewrite Hn. rewrite (Hs eq_refl). reflexivity.
  - rewrite (Hr 22050); [reflexivity | discriminate].
Defined.

Lemma mix_down_vocals_and_accompaniment_witness :
  @mix_down [[ [[one]]; [[two]]; [[three]]; [[two]] ]]
    = Returns ([[two]], [[six]]) /\
  shape_is 1 1 [[six]] /\
  @model_input echo_libs (PStr "ab") = Returns ([mix_ab], 44100) /\
  isolate_voice (isolator echo) (PStr "ab") = Returns result_of_ab /\
  exists vb ab,
    @encode_audio echo_libs 44100 mix_ab = Returns vb /\
    @encode_audio echo_libs 44100
      (tensor_add (tensor_add mix_ab mix_ab) mix_ab) = Returns ab /\
    result_of_ab !! "vocals_base64" = Some (PStr vb) /\
    result_of_ab !! "accompaniment_base64" = Some (PStr ab).
Proof.
  destruct (mix_down_vocals_and_accompaniment (L := echo_libs)
              [[one]] [[two]] [[three]] [[two]] [] [])
    as [(acc & Hmix & Hsample & Hshape) _].
  assert (Hsix : acc = [[six]]).
  { injection Hmix as <-. reflexivity. }
  assert (Hone : forall x : sample, shape_is 1 1 [[x]])
    by (intros x; split; [reflexivity | repeat constructor]).
  split; [now rewrite Hmix, Hsix|].
  split; [rewrite <- Hsix; apply Hshape; apply Hone|].
  assert (Hin : @model_input echo_libs (PStr "ab") = Returns ([mix_ab], 44100))
    by (vm_compute; reflexivity).
  assert (Hres : isolate_voice (isolator echo) (PStr "ab") = Returns result_of_ab)
    by (vm_compute; reflexivity).
  split; [exact Hin|]. split; [exact Hres|].
  destruct (mix_down_vocals_and_accompaniment (L := echo_libs)
              mix_ab mix_ab mix_ab mix_ab [] []) as [_ H].
  exact (H (isolator echo) (PStr "ab") [mix_ab] 44100 result_of_ab
           Hin eq_refl Hres).
Defined.

Lemma duration_is_sample_count_over_rate_witness :
  isolate_voice_endpoint (isolator echo) request_plain = Returns response_plain /\
  response_plain !! "success" = Some (PBool true) /\
  exists vocals acc sample_rate result,
    separate (isolator echo) (get request_plain "audio_base64" PNone)
      = Returns (vocals, acc, sample_rate) /\
    isolate_voice (isolator echo) (get request_plain "audio_base64" PNone)
      = Returns result /\
    result !! "sample_rate" = Some (PInt sample_rate) /\
    sample_rate = 44100 /\
    truediv (shape1 vocals) sample_rate
      = Returns (SFdiv 53 1024 (Z2SF (shape1 vocals)) (Z2SF sample_rate)) /\
    result !! "duration_seconds"
      = Some (PFloat (SFdiv 53 1024 (Z2SF (shape1 vocals)) (Z2SF sample_rate))) /\
    response_plain !! "duration_seconds"
      = Some (PFloat (SFdiv 53 1024 (Z2SF (shape1 vocals)) (Z2SF sample_rate))).
Proof.
  assert (H : isolate_voice_endpoint (isolator echo) request_plain
              = Returns response_plain) by (vm_compute; reflexivity).
  assert (Hok : response_plain !! "success" = Some (PBool true))
    by reflexivity.
  split; [exact H|]. split; [exact Hok|].
  exact (duration_is_sample_count_over_rate
           (isolator echo) request_plain response_plain H Hok).
Defined.

Lemma missing_audio_is_structured_failure_witness :
  request_no_audio !! "audio_base64" = None /\
  isolate_voice_endpoint (isolator echo) request_no_audio =
    Returns {[ "success" := PBool false;
               "error" := PStr "audio_base64 is required" ]}.
Proof.
  assert (H : request_no_audio !! "audio_base64" = None) by reflexivity.
  split; [exact H|].
  exact (missing_audio_is_structured_failure (isolator echo) request_no_audio H).
Defined.

Lemma falsy_audio_is_treated_as_missing_witness :
  request_empty_audio !! "audio_base64" = Some (PStr "") /\
  truthy (PStr "") = false /\
  isolate_voice_endpoint (isolator echo) request_empty_audio =
    Returns {[ "success" := PBool false;
               "error" := PStr "audio_base64 is required" ]} /\
  isolate_voice_endpoint (isolator echo) request_empty_audio =
    isolate_voice_endpoint (isolator echo)
      (delete "audio_base64" request_empty_audio).
Proof.
  assert (H : request_empty_audio !! "audio_base64" = Some (PStr ""))
    by reflexivity.
  assert (Hf : truthy (PStr "") = false) by reflexivity.
  split; [exact H|]. split; [exact Hf|].
  exact (falsy_audio_is_treated_as_missing
           (isolator echo) request_empty_audio (PStr "") H Hf).
Defined.

Lemma accompaniment_iff_requested_witness :
  isolate_voice_endpoint (isolator echo) request_with_accompaniment
    = Returns response_with_accompaniment /\
  response_with_accompaniment !! "accompaniment_base64"
    = Some (PStr "11111111") /\
  isolate_voice_endpoint (isolator echo) request_plain = Returns response_plain /\
  response_plain !! "accompaniment_base64" = None.
Proof.
  assert (H1 : isolate_voice_endpoint (isolator echo) request_with_accompaniment
               = Returns response_with_accompaniment)
    by (vm_compute; reflexivity).
  assert (H2 : isolate_voice_endpoint (isolator echo) request_plain
               = Returns response_plain) by (vm_compute; reflexivity).
  split; [exact H1|]. split; [reflexivity|]. split; [exact H2|].
  destruct (accompaniment_iff_requested
              (isolator echo) request_plain response_plain H2) as (_ & _ & Hno).
  apply Hno. left. reflexivity.
Defined.

Lemma endpoint_converts_Exception_instances_witness :
  libs_raise_only_Exception echo_libs /\
  isolate_voice_endpoint (isolator echo) request_not_text =
    Returns {[ "success" := PBool false;
               "error" := PStr "argument should be a bytes-like object or ASCII string" ]} /\
  exists response,
    isolate_voice_endpoint (isolator echo) request_not_text = Returns response /\
    (response !! "success" = Some (PBool true) \/
     exists message,
       response = {[ "success" := PBool false; "error" := PStr message ]}).
Proof.
  destruct (endpoint_converts_Exception_instances
              (isolator echo) request_not_text) as [Hcase Hall].
  split; [exact echo_libs_cooperative|].
  split; [exact Hcase|].
  exact (Hall echo_libs_cooperative).
Defined.

(** C5, as the claim has it, fails: a [KeyboardInterrupt] raised while the
    model runs is not an [Exception], and leaves the handler. *)
Lemma endpoint_lets_KeyboardInterrupt_through :
  isolate_voice_endpoint (isolator interrupted) request_plain
    = Raises (MkExn FromBaseExceptionOnly "KeyboardInterrupt" "") /\
  ~ exists response,
      isolate_voice_endpoint (isolator interrupted) request_plain
        = Returns response.
Proof.
  assert (H : isolate_voice_endpoint (isolator interrupted) request_plain
              = Raises (MkExn FromBaseExceptionOnly "KeyboardInterrupt" ""))
    by (vm_compute; reflexivity).
  split; [exact H|]. intros [response Hr]. rewrite H in Hr. discriminate.
Qed.
End Instances.


(** ** Further properties of the normalization *)

Section NormalizationEdges.
Context `{L : AudioLibs}.

Lemma ensure_stereo_idempotent (w : waveform) :
  ensure_stereo (ensure_stereo w) = ensure_stereo w.
Proof.
  destruct w as [|c0 [|c1 [|c2 rest]]].
  - reflexivity.
  - now rewrite ensure_stereo_mono, ensure_stereo_stereo.
  - now rewrite !ensure_stereo_stereo.
  - now rewrite ensure_stereo_many, ensure_stereo_stereo.
Qed.

Lemma ensure_stereo_rectangular (n : nat) (w : waveform) :
  rectangular n w -> rectangular n (ensure_stereo w).
Proof.
  unfold rectangular. intros Hw.
  apply Forall_forall. intros c Hc.
  apply ensure_stereo_channels in Hc.
  rewrite Forall_forall in Hw. now apply Hw.
Qed.

(** X1. Normalizing twice is normalizing once: a buffer that came out of
    the normalization, fed to it again with the rate it came out with, is
    returned as it is and no resampler is built. *)
Theorem normalize_idempotent (w w' : waveform) (sample_rate sr' : Z) :
  normalize w sample_rate = Returns (w', sr') ->
  normalize w' sr' = Returns (w', sr').
Proof.
  intros H. apply normalize_Returns_inv in H as (wr & _ & -> & ->).
  unfold normalize. rewrite resample_at_model_rate. simpl.
  now rewrite ensure_stereo_idempotent.
Qed.

(** X2. A buffer with no channel at all is never made stereo. At
    44100 Hz the normalization hands it on with zero channels. At any other
    rate it raises: the exception of the construction of the resampler if
    that raises, and otherwise a [RuntimeError] (an [Exception]) from the
    call of the resampler on the tensor without channels. *)
Theorem normalize_no_channel (sample_rate : Z) :
  normalize [] 44100 = Returns ([], 44100) /\
  (sample_rate <> 44100 ->
   match Resample sample_rate 44100 with
   | Returns _ =>
       exists e, normalize [] sample_rate = Raises e /\
                 exn_class e = "RuntimeError" /\
                 isinstance_Exception e = true
   | Raises e => normalize [] sample_rate = Raises e
   end).
Proof.
  split; [reflexivity|]. intros Hsr.
  unfold normalize. rewrite (resample_other_rate [] sample_rate Hsr).
  destruct (Resample sample_rate 44100); simpl; [|reflexivity].
  eexists. repeat split; reflexivity.
Qed.

(** X3. At 44100 Hz the normalization keeps the number of samples per
    channel: from [n] samples in every input channel (at least one
    channel) it makes two channels of [n] samples each. *)
Theorem normalize_keeps_sample_count (n : nat) (w : waveform) :
  1 <= shape0 w ->
  rectangular n w ->
  exists w', normalize w 44100 = Returns (w', 44100) /\
             shape_is 2 n w' /\ shape1 w' = Z.of_nat n.
Proof.
  intros Hw Hrect. exists (ensure_stereo w).
  split; [reflexivity|].
  pose proof (ensure_stereo_shape w Hw) as Hlen.
  pose proof (ensure_stereo_rectangular n w Hrect) as Hr.
  unfold shape0 in Hlen.
  destruct (ensure_stereo w) as [|c0 rest]; [simpl in Hlen; lia|].
  split; [split; [lia | exact Hr]|].
  inversion Hr; subst. reflexivity.
Qed.

(** X15. A two-channel input keeps its two channels in their order: the
    output is channel 0 then channel 1, each after the resampling step, at
    44100 Hz; left and right are neither swapped nor mixed. *)
Theorem normalize_stereo_keeps_channel_order (c0 c1 : channel) (sample_rate : Z) :
  match normalize [c0; c1] sample_rate with
  | Returns (w', sr') =>
      exists o0 o1,
        resampled sample_rate c0 = Returns o0 /\
        resampled sample_rate c1 = Returns o1 /\
        w' = [o0; o1] /\ sr' = 44100
  | Raises e => resample_to_model_rate [c0; c1] sample_rate = Raises e
  end.
Proof.
  destruct (normalize [c0; c1] sample_rate) as [[w' sr']|e] eqn:Hn.
  - apply normalize_Returns_inv in Hn as (wr & Hr & -> & ->).
    apply resample_Returns_inv in Hr as [_ Hall].
    inversion Hall as [|? o0 ? wr1 H0 Hall1]; subst.
    inversion Hall1 as [|? o1 ? wr2 H1 Hall2]; subst.
    inversion Hall2; subst.
    exists o0, o1. rewrite ensure_stereo_stereo. auto.
  - now apply normalize_Raises.
Qed.
End NormalizationEdges.

(** ** Further properties of the mix-down and of the encoder *)

Lemma index_Raises_inv {B : Type} (t : list B) (i : nat) (e : exn) :
  index t i = Raises e -> exn_class e = "IndexError" /\ (length t <= i)%nat.
Proof.
  unfold index. destruct (t !! i) eqn:Hi; intros H; [discriminate|].
  injection H as <-. split; [reflexivity|]. now apply lookup_ge_None.
Qed.

(** X4. The mix-down needs a batch element with four stems. With at least
    four it returns, and neither the stems past index 3 nor the other
    batch elements enter the result; with an empty batch or fewer than
    four stems it raises an [IndexError] (an [Exception]) and returns no
    partial result. *)
Theorem mix_down_stem_bounds (sources : list (list waveform)) :
  (forall stems rest,
     sources = stems :: rest -> (4 <= length stems)%nat ->
     exists vocals acc,
       mix_down sources = Returns (vocals, acc) /\
       stems !! 3%nat = Some vocals /\
       mix_down [take 4 stems] = Returns (vocals, acc)) /\
  (sources = [] \/
   (exists stems rest, sources = stems :: rest /\ (length stems < 4)%nat) ->
   exists e, mix_down sources = Raises e /\
             exn_class e = "IndexError" /\ isinstance_Exception e = true).
Proof.
  split.
  - intros stems rest -> Hlen.
    destruct stems as [|d [|b [|o [|v more]]]]; simpl in Hlen; try lia.
    exists v, (tensor_add (tensor_add d b) o). repeat split; reflexivity.
  - intros [-> | (stems & rest & -> & Hlen)].
    + eexists. repeat split; reflexivity.
    + destruct stems as [|d [|b [|o [|v more]]]]; simpl in Hlen; try lia;
        eexists; repeat split; reflexivity.
Qed.

Lemma transpose_length (n : nat) (t : list (list spec_float)) :
  t <> [] -> rectangular n t -> length (transpose t) = n.
Proof.
  induction t as [|row rest IH]; intros Hne Hrect; [congruence|].
  inversion Hrect as [|? ? Hrow Hrest]; subst.
  destruct rest as [|row' rest'].
  - simpl. now rewrite length_map.
  - change (transpose (row :: row' :: rest'))
      with (zip_with cons row (transpose (row' :: rest'))).
    rewrite length_zip_with, IH; [lia | discriminate | exact Hrest].
Qed.

Lemma transpose_sample_at (n : nat) (t : waveform) (i c : nat) :
  t <> [] -> rectangular n t ->
  sample_at (transpose t) i c = sample_at t c i.
Proof.
  revert c. induction t as [|row rest IH]; intros c Hne Hrect; [congruence|].
  inversion Hrect as [|? ? Hrow Hrest]; subst.
  destruct rest as [|row' rest'].
  - unfold sample_at. simpl. rewrite list_lookup_fmap.
    destruct c as [|c]; simpl.
    + now destruct (row !! i).
    + destruct (row !! i); simpl; [|reflexivity].
      now rewrite lookup_nil.
  - change (transpose (row :: row' :: rest'))
      with (zip_with cons row (transpose (row' :: rest'))).
    assert (Hlen : length (transpose (row' :: rest')) = length row)
      by (apply transpose_length; [discriminate | exact Hrest]).
    assert (IH' : forall c, sample_at (transpose (row' :: rest')) i c
                            = sample_at (row' :: rest') c i)
      by (intros c'; apply IH; [discriminate | exact Hrest]).
    clear IH. remember (transpose (row' :: rest')) as tr eqn:Etr. clear Etr.
    unfold sample_at. rewrite lookup_zip_with.
    destruct (row !! i) as [x|] eqn:Hx; simpl.
    + destruct (tr !! i) as [r|] eqn:Hr; simpl.
      * destruct c as [|c]; simpl; [now rewrite Hx|].
        specialize (IH' c). unfold sample_at in IH'.
        rewrite Hr in IH'. exact IH'.
      * apply lookup_ge_None in Hr. apply lookup_lt_Some in Hx. lia.
    + destruct c as [|c]; simpl; [now rewrite Hx|].
      apply lookup_ge_None in Hx.
      destruct ((row' :: rest') !! c) as [r|] eqn:Hr; simpl; [|reflexivity].
      symmetry. apply lookup_ge_None.
      assert (Hin : r ∈ row' :: rest') by (eapply list_elem_of_lookup_2; eauto).
      unfold rectangular in Hrest. rewrite Forall_forall in Hrest.
      rewrite (Hrest r Hin). exact Hx.
Qed.

Section EncoderAndMethod.
Context `{L : AudioLibs}.

(** X5. What [encode_audio] hands to the WAV writer is the buffer frame by
    frame: for a buffer of [c >= 1] channels with [n] samples each, [n]
    frames of [c] values, the value of channel [k] in frame [i] being
    sample [i] of channel [k]. *)
Theorem encode_audio_frames (c n : nat) (sample_rate : Z) (audio_np : waveform) :
  (1 <= c)%nat ->
  shape_is c n audio_np ->
  exists frames,
    encode_audio sample_rate audio_np
      = (let* wav := sf_write frames sample_rate in b64encode wav) /\
    shape_is n c frames /\
    forall i k, sample_at frames i k = sample_at audio_np k i.
Proof.
  intros Hc [Hlen Hrect]. exists (transpose audio_np).
  split; [reflexivity|].
  assert (Hne : audio_np <> []) by (intros ->; simpl in Hlen; lia).
  split; [split|].
  - now apply transpose_length.
  - unfold rectangular. apply Forall_forall. intros frame Hf.
    apply list_elem_of_lookup_1 in Hf as [i Hi].
    assert (Hi' : (i < n)%nat).
    { apply lookup_lt_Some in Hi.
      now rewrite (transpose_length n audio_np Hne Hrect) in Hi. }
    apply Nat.le_antisymm.
    + apply Nat.nlt_ge. intros Hlt.
      destruct (lookup_lt_is_Some_2 frame c Hlt) as [x Hx].
      pose proof (transpose_sample_at n audio_np i c Hne Hrect) as Heq.
      unfold sample_at in Heq. rewrite Hi in Heq. simpl in Heq.
      rewrite Hx in Heq.
      rewrite (lookup_ge_None_2 audio_np c) in Heq by lia. discriminate.
    + apply Nat.nlt_ge. intros Hlt.
      assert (Hk : (length frame < length audio_np)%nat) by lia.
      destruct (lookup_lt_is_Some_2 audio_np _ Hk) as [row Hrow].
      pose proof (transpose_sample_at n audio_np i (length frame) Hne Hrect) as Heq.
      unfold sample_at in Heq. rewrite Hi, Hrow in Heq. simpl in Heq.
      rewrite (lookup_ge_None_2 frame (length frame)) in Heq by lia.
      assert (Hin : row ∈ audio_np) by (eapply list_elem_of_lookup_2; eauto).
      unfold rectangular in Hrect. rewrite Forall_forall in Hrect.
      destruct (lookup_lt_is_Some_2 row i) as [y Hy];
        [rewrite (Hrect row Hin); lia|].
      rewrite Hy in Heq. discriminate.
  - intros i k. now apply (transpose_sample_at n).
Qed.

(** X6. A result of [isolate_voice] has exactly the keys [vocals_base64],
    [accompaniment_base64], [sample_rate] and [duration_seconds]; the two
    encodings are strings, the duration a float, and the sample rate is
    44100 whatever the rate of the input file was. *)
Theorem isolate_voice_result_fields (self : VoiceIsolator)
    (audio_base64 : pyval) (result : gmap string pyval) :
  isolate_voice self audio_base64 = Returns result ->
  dom result = {[ "vocals_base64"; "accompaniment_base64";
                  "sample_rate"; "duration_seconds" ]} /\
  result !! "sample_rate" = Some (PInt 44100) /\
  (exists vb, result !! "vocals_base64" = Some (PStr vb)) /\
  (exists ab, result !! "accompaniment_base64" = Some (PStr ab)) /\
  (exists d, result !! "duration_seconds" = Some (PFloat d)).
Proof.
  intros H.
  apply isolate_voice_Returns_inv in H
    as (v & a & sr & vb & ab & d & Hsep & _ & _ & _ & ->).
  apply separate_Returns_inv in Hsep as (_ & _ & _ & _ & _ & ->).
  split.
  - rewrite !dom_insert_L, dom_singleton_L. set_solver.
  - split; [reflexivity|]. split; [exists vb|split; [exists ab|exists d]];
      reflexivity.
Qed.

(** X7. [isolate_voice] raises exactly the first exception of its stages,
    in the order of the code: decoding, loading, normalization, the model,
    the mix-down, the encoding of the vocals, the encoding of the
    accompaniment, the division for the duration; a stage is reached only
    when all stages before it returned. *)
Theorem isolate_voice_first_failure (self : VoiceIsolator)
    (audio_base64 : pyval) (e : exn) :
  isolate_voice self audio_base64 = Raises e <->
  b64decode audio_base64 = Raises e \/
  exists audio_bytes,
    b64decode audio_base64 = Returns audio_bytes /\
    (torchaudio_load audio_bytes = Raises e \/
     exists w sr,
       torchaudio_load audio_bytes = Returns (w, sr) /\
       (normalize w sr = Raises e \/
        exists w',
          normalize w sr = Returns (w', 44100) /\
          (apply_model (self_model self) [w'] (self_device self) = Raises e \/
           exists sources,
             apply_model (self_model self) [w'] (self_device self)
               = Returns sources /\
             (mix_down sources = Raises e \/
              exists vocals acc,
                mix_down sources = Returns (vocals, acc) /\
                (encode_audio 44100 vocals = Raises e \/
                 exists vb,
                   encode_audio 44100 vocals = Returns vb /\
                   (encode_audio 44100 acc = Raises e \/
                    exists ab,
                      encode_audio 44100 acc = Returns ab /\
                      truediv (shape1 vocals) 44100 = Raises e)))))).
Proof.
  unfold isolate_voice, separate, model_input, unsqueeze0.
  destruct (b64decode audio_base64) as [audio_bytes|e0]; simpl.
  2:{ split; [intros H; left; congruence|].
      intros [H | (? & H & _)]; [congruence | discriminate]. }
  destruct (torchaudio_load audio_bytes) as [[w sr]|e0] eqn:Hload; simpl.
  2:{ split.
      - intros H. right. exists audio_bytes. split; [reflexivity|].
        left; congruence.
      - intros [H | (b & Hb & H)]; [discriminate|]. injection Hb as <-.
        destruct H as [H | (? & ? & H & _)]; congruence. }
  destruct (normalize w sr) as [[w' sr']|e0] eqn:Hnorm; simpl.
  2:{ split.
      - intros H. right. exists audio_bytes. split; [reflexivity|].
        right. exists w, sr. split; [exact Hload|]. left; congruence.
      - intros [H | (b & Hb & H)]; [discriminate|]. injection Hb as <-.
        destruct H as [H | (w0 & sr0 & Hl & H)]; [congruence|].
        rewrite Hload in Hl. injection Hl as <- <-.
        destruct H as [H | (? & H & _)]; congruence. }
  assert (sr' = 44100) as ->
    by (apply normalize_Returns_inv in Hnorm as (_ & _ & _ & ?); assumption).
  split.
  - intros H. right. exists audio_bytes. split; [reflexivity|].
    right. exists w, sr. split; [exact Hload|].
    right. exists w'. split; [exact Hnorm|].
    destruct (apply_model (self_model self) [w'] (self_device self))
      as [sources|e0]; simpl in H; [|left; congruence].
    right. exists sources. split; [reflexivity|].
    destruct (mix_down sources) as [[v a]|e0]; simpl in H; [|left; congruence].
    right. exists v, a. split; [reflexivity|].
    destruct (encode_audio 44100 v) as [vb|e0]; simpl in H; [|left; congruence].
    right. exists vb. split; [reflexivity|].
    destruct (encode_audio 44100 a) as [ab|e0]; simpl in H; [|left; congruence].
    right. exists ab. split; [reflexivity|].
    destruct (truediv (shape1 v) 44100); simpl in H; [discriminate | congruence].
  - intros [H | (b & Hb & H)]; [discriminate|]. injection Hb as <-.
    destruct H as [H | (w0 & sr0 & Hl & H)]; [congruence|].
    rewrite Hload in Hl. injection Hl as <- <-.
    destruct H as [H | (w0' & Hn & H)]; [congruence|].
    rewrite Hnorm in Hn. injection Hn as <-.
    destruct H as [H | (sources & Hm & H)]; [now rewrite H|].
    rewrite Hm. simpl.
    destruct H as [H | (v & a & Hmix & H)]; [now rewrite H|].
    rewrite Hmix. simpl.
    destruct H as [H | (vb & Hvb & H)]; [now rewrite H|].
    rewrite Hvb. simpl.
    destruct H as [H | (ab & Hab & H)]; [now rewrite H|].
    rewrite Hab. simpl. now rewrite H.
Qed.
End EncoderAndMethod.

(** ** Further properties of the request handler *)

Section EndpointComposition.
Context `{L : AudioLibs}.

Lemma get_agree (d1 d2 : gmap string pyval) (key : string) (default : pyval) :
  d1 !! key = d2 !! key -> get d1 key default = get d2 key default.
Proof. unfold get. now intros ->. Qed.

(** The handler, once [isolate_voice] has returned. *)
Lemma endpoint_after_isolate_voice (isolator : VoiceIsolator)
    (request : gmap string pyval) (sr : Z) (vb ab : string) (d : spec_float) :
  truthy (get request "audio_base64" PNone) = true ->
  isolate_voice isolator (get request "audio_base64" PNone)
    = Returns {[ "vocals_base64" := PStr vb;
                 "accompaniment_base64" := PStr ab;
                 "sample_rate" := PInt sr;
                 "duration_seconds" := PFloat d ]} ->
  isolate_voice_endpoint isolator request =
    Returns (if truthy (get request "return_accompaniment" (PBool false))
             then <["accompaniment_base64" := PStr ab]>
                    {[ "success" := PBool true; "vocals_base64" := PStr vb;
                       "duration_seconds" := PFloat d ]}
             else {[ "success" := PBool true; "vocals_base64" := PStr vb;
                     "duration_seconds" := PFloat d ]}).
Proof.
  intros Haudio Hres.
  unfold isolate_voice_endpoint, endpoint_body. rewrite Haudio, Hres. simpl.
  now destruct (truthy (get request "return_accompaniment" (PBool false))).
Qed.

(** The handler, once [isolate_voice] has raised. *)
Lemma endpoint_after_exception (isolator : VoiceIsolator)
    (request : gmap string pyval) (e : exn) :
  truthy (get request "audio_base64" PNone) = true ->
  isolate_voice isolator (get request "audio_base64" PNone) = Raises e ->
  isolate_voice_endpoint isolator request =
    if isinstance_Exception e
    then Returns {[ "success" := PBool false; "error" := PStr (exn_str e) ]}
    else Raises e.
Proof.
  intros Haudio Hres.
  unfold isolate_voice_endpoint, endpoint_body. rewrite Haudio, Hres. simpl.
  now destruct (isinstance_Exception e).
Qed.

(** X8. With a truthy [audio_base64] the handler's outcome is that of
    [isolate_voice] and nothing else: from a result it builds the success
    response out of the result's fields (its own dictionary accesses never
    raise [KeyError]); an [Exception] becomes the failure record with
    [str(e)]; anything else is re-raised unchanged. *)
Theorem endpoint_follows_isolate_voice (isolator : VoiceIsolator)
    (request : gmap string pyval) :
  truthy (get request "audio_base64" PNone) = true ->
  match isolate_voice isolator (get request "audio_base64" PNone) with
  | Returns result =>
      exists vb ab d,
        result !! "vocals_base64" = Some (PStr vb) /\
        result !! "accompaniment_base64" = Some (PStr ab) /\
        result !! "duration_seconds" = Some (PFloat d) /\
        isolate_voice_endpoint isolator request =
          Returns (if truthy (get request "return_accompaniment" (PBool false))
                   then <["accompaniment_base64" := PStr ab]>
                          {[ "success" := PBool true;
                             "vocals_base64" := PStr vb;
                             "duration_seconds" := PFloat d ]}
                   else {[ "success" := PBool true;
                           "vocals_base64" := PStr vb;
                           "duration_seconds" := PFloat d ]})
  | Raises e =>
      isolate_voice_endpoint isolator request =
        if isinstance_Exception e
        then Returns {[ "success" := PBool false; "error" := PStr (exn_str e) ]}
        else Raises e
  end.
Proof.
  intros Haudio.
  destruct (isolate_voice isolator (get request "audio_base64" PNone))
    as [result|e] eqn:Hres.
  - destruct (isolate_voice_Returns_inv _ _ _ Hres)
      as (v & a & sr & vb & ab & d & _ & _ & _ & _ & ->).
    exists vb, ab, d. repeat (split; [reflexivity|]).
    now apply (endpoint_after_isolate_voice _ _ sr).
  - now apply endpoint_after_exception.
Qed.

(** X9. The accompaniment is encoded whether it was asked for or not:
    when [return_accompaniment] is false or absent and the vocals encode
    but the accompaniment does not, the request fails with that error. *)
Theorem unrequested_accompaniment_is_still_encoded (isolator : VoiceIsolator)
    (request : gmap string pyval) (vocals acc : waveform) (sr : Z)
    (vb : string) (e : exn) :
  truthy (get request "audio_base64" PNone) = true ->
  truthy (get request "return_accompaniment" (PBool false)) = false ->
  separate isolator (get request "audio_base64" PNone)
    = Returns (vocals, acc, sr) ->
  encode_audio sr vocals = Returns vb ->
  encode_audio sr acc = Raises e ->
  isinstance_Exception e = true ->
  isolate_voice_endpoint isolator request =
    Returns {[ "success" := PBool false; "error" := PStr (exn_str e) ]}.
Proof.
  intros Haudio _ Hsep Hvb Hab He.
  rewrite (endpoint_after_exception isolator request e Haudio).
  - now rewrite He.
  - unfold isolate_voice. rewrite Hsep. simpl. rewrite Hvb. simpl.
    now rewrite Hab.
Qed.

(** X10. The keys of a response. A success response holds [success],
    [vocals_base64], [duration_seconds], and [accompaniment_base64] when it
    was asked for: never [sample_rate], never [error]. Any other response
    is [success: false] with [error] and nothing else: no partial result. *)
Theorem endpoint_response_keys (isolator : VoiceIsolator)
    (request response : gmap string pyval) :
  isolate_voice_endpoint isolator request = Returns response ->
  (response !! "success" = Some (PBool true) /\
   dom response =
     {[ "success"; "vocals_base64"; "duration_seconds" ]} ∪
     (if truthy (get request "return_accompaniment" (PBool false))
      then {[ "accompaniment_base64" ]} else ∅)) \/
  (response !! "success" = Some (PBool false) /\
   dom response = {[ "success"; "error" ]}).
Proof.
  intros Hresp.
  destruct (endpoint_Returns_cases _ _ _ Hresp) as [Hok | [message ->]].
  - left. split; [exact Hok|].
    destruct (endpoint_success_inv _ _ _ Hresp Hok)
      as (result & vb & d & _ & _ & _ & _ & Hno & Hyes).
    destruct (truthy (get request "return_accompaniment" (PBool false))).
    + destruct (Hyes eq_refl) as (ab & _ & ->).
      rewrite !dom_insert_L, dom_singleton_L. set_solver.
    + rewrite (Hno eq_refl).
      rewrite !dom_insert_L, dom_singleton_L. set_solver.
  - right. split; [reflexivity|].
    unfold failure. rewrite !dom_insert_L, dom_singleton_L. set_solver.
Qed.

(** X11. Only two fields of the request are read: two requests that agree
    on [audio_base64] and on [return_accompaniment] get the same outcome,
    whatever else they hold. *)
Theorem endpoint_reads_two_fields (isolator : VoiceIsolator)
    (request1 request2 : gmap string pyval) :
  request1 !! "audio_base64" = request2 !! "audio_base64" ->
  request1 !! "return_accompaniment" = request2 !! "return_accompaniment" ->
  isolate_voice_endpoint isolator request1
    = isolate_voice_endpoint isolator request2.
Proof.
  intros Ha Hr.
  unfold isolate_voice_endpoint, endpoint_body.
  now rewrite (get_agree _ _ _ PNone Ha), (get_agree _ _ _ (PBool false) Hr).
Qed.

(** X12. [return_accompaniment] only adds a field. From a success
    response to a request, the same request with the flag [false] gets that
    response without [accompaniment_base64], and with the flag [true] that
    response with one field added: the encoding, by [encode_audio], of the
    accompaniment that this run separated. Vocals and duration are the
    same. *)
Theorem accompaniment_flag_only_adds_field (isolator : VoiceIsolator)
    (request response : gmap string pyval) :
  isolate_voice_endpoint isolator request = Returns response ->
  response !! "success" = Some (PBool true) ->
  isolate_voice_endpoint isolator
      (<["return_accompaniment" := PBool false]> request)
    = Returns (delete "accompaniment_base64" response) /\
  exists vocals acc sample_rate ab,
    separate isolator (get request "audio_base64" PNone)
      = Returns (vocals, acc, sample_rate) /\
    encode_audio sample_rate acc = Returns ab /\
    isolate_voice_endpoint isolator
        (<["return_accompaniment" := PBool true]> request)
      = Returns (<["accompaniment_base64" := PStr ab]> response).
Proof.
  intros Hresp Hok.
  destruct (endpoint_success_inv _ _ _ Hresp Hok)
    as (result & vb0 & d0 & Haudio & Hres & Hvb0 & Hd0 & Hno & Hyes).
  destruct (isolate_voice_Returns_inv _ _ _ Hres)
    as (v & a & sr & vb & ab & d & Hsep & _ & Hab & _ & Heq).
  subst result.
  assert (vb0 = PStr vb) as ->.
  { change (Some (PStr vb) = Some vb0) in Hvb0. congruence. }
  assert (d0 = PFloat d) as ->.
  { change (Some (PFloat d) = Some d0) in Hd0. congruence. }
  assert (Hget : forall b,
            get (<["return_accompaniment" := PBool b]> request)
                "audio_base64" PNone = get request "audio_base64" PNone).
  { intros b. apply get_agree. now rewrite lookup_insert_ne. }
  assert (Hflag : forall b,
            get (<["return_accompaniment" := PBool b]> request)
                "return_accompaniment" (PBool false) = PBool b).
  { intros b. unfold get. now rewrite lookup_insert_eq. }
  assert (Hbase :
    ({[ "success" := PBool true; "vocals_base64" := PStr vb;
        "duration_seconds" := PFloat d ]} : gmap string pyval)
      !! "accompaniment_base64" = None) by reflexivity.
  split; [|exists v, a, sr, ab; split; [exact Hsep|]; split; [exact Hab|]].
  - rewrite (endpoint_after_isolate_voice _ _ sr vb ab d);
      [|now rewrite Hget..].
    rewrite Hflag. simpl. f_equal.
    destruct (truthy (get request "return_accompaniment" (PBool false))).
    + destruct (Hyes eq_refl) as (ab' & _ & ->).
      rewrite delete_insert_eq. symmetry. now apply delete_id.
    + rewrite (Hno eq_refl). symmetry. now apply delete_id.
  - rewrite (endpoint_after_isolate_voice _ _ sr vb ab d);
      [|now rewrite Hget..].
    rewrite Hflag. simpl. f_equal.
    destruct (truthy (get request "return_accompaniment" (PBool false))).
    + destruct (Hyes eq_refl) as (ab' & Hab' & ->).
      assert (ab' = PStr ab) as ->.
      { change (Some (PStr ab) = Some ab') in Hab'. congruence. }
      now rewrite insert_insert_eq.
    + now rewrite (Hno eq_refl).
Qed.
End EndpointComposition.

(** ** The duration and the local entry point *)

Section DurationAndEntrypoint.
Context `{L : AudioLibs}.

Lemma truediv_Raises_inv (n d : Z) (e : exn) :
  truediv n d = Raises e ->
  (d = 0 /\ e = ZeroDivisionError) \/ (d <> 0 /\ e = OverflowError).
Proof.
  unfold truediv. destruct (d =? 0) eqn:Hd.
  - apply Z.eqb_eq in Hd. intros H. injection H as <-. now left.
  - apply Z.eqb_neq in Hd.
    destruct (SFdiv 53 1024 (Z2SF n) (Z2SF d)); simpl; intros H;
      try discriminate. injection H as <-. now right.
Qed.

(** X13. The division for the duration is by 44100, never by zero: it can
    only fail by overflow, and vocals without samples give a successful
    result whose [duration_seconds] is [0.0]. *)
Theorem duration_of_empty_vocals (self : VoiceIsolator) (audio_base64 : pyval)
    (vocals acc : waveform) (sr : Z) (vb ab : string) :
  separate self audio_base64 = Returns (vocals, acc, sr) ->
  encode_audio sr vocals = Returns vb ->
  encode_audio sr acc = Returns ab ->
  (forall e, truediv (shape1 vocals) sr = Raises e -> e = OverflowError) /\
  (shape1 vocals = 0 ->
   exists result,
     isolate_voice self audio_base64 = Returns result /\
     result !! "duration_seconds" = Some (PFloat (S754_zero false))).
Proof.
  intros Hsep Hvb Hab.
  destruct (separate_Returns_inv _ _ _ _ _ Hsep) as (_ & _ & _ & _ & _ & ->).
  split.
  - intros e H.
    apply truediv_Raises_inv in H as [[H _] | [_ H]]; [discriminate | exact H].
  - intros Hzero. unfold isolate_voice.
    rewrite Hsep. simpl. rewrite Hvb. simpl. rewrite Hab. simpl.
    rewrite Hzero. eexists. split; reflexivity.
Qed.

Lemma transpose_pair (tone : channel) :
  transpose [tone; tone] = map (fun x => [x; x]) tone.
Proof.
  simpl. induction tone as [|x tone IH]; simpl; [reflexivity|].
  now rewrite IH.
Qed.

(** X14. What [test_isolation] does and prints. The file it writes holds
    the tone twice in every frame; its request carries no
    [return_accompaniment], so the response has no accompaniment; and it
    prints either [True] with a float duration or [False] with [None]:
    reading the response with [.get] never raises. *)
Theorem test_isolation_report (isolator : VoiceIsolator) (tone : channel)
    (success duration : pyval) :
  test_isolation isolator tone = Returns (success, duration) ->
  exists wav audio response,
    sf_write (map (fun x => [x; x]) tone) 44100 = Returns wav /\
    b64encode wav = Returns audio /\
    isolate_voice_endpoint isolator {[ "audio_base64" := PStr audio ]}
      = Returns response /\
    response !! "accompaniment_base64" = None /\
    ((success = PBool true /\ exists d, duration = PFloat d) \/
     (success = PBool false /\ duration = PNone)).
Proof.
  unfold test_isolation. rewrite transpose_pair. intros H.
  apply bind_Returns_inv in H as (wav & Hwav & H).
  apply bind_Returns_inv in H as (audio & Haudio & H).
  apply bind_Returns_inv in H as (response & Hresp & H).
  injection H as <- <-.
  exists wav, audio, response. repeat (split; [assumption|]).
  destruct (endpoint_Returns_cases _ _ _ Hresp) as [Hok | [message ->]].
  - destruct (endpoint_success_inv _ _ _ Hresp Hok)
      as (result & vb0 & d0 & _ & Hres & _ & Hd0 & Hno & _).
    destruct (isolate_voice_Returns_inv _ _ _ Hres)
      as (v & a & sr & vb & ab & d & _ & _ & _ & _ & ->).
    change (Some (PFloat d) = Some d0) in Hd0. injection Hd0 as <-.
    rewrite (Hno eq_refl).
    split; [reflexivity|]. left. split; [reflexivity|]. now exists d.
  - split; [reflexivity|]. right. split; reflexivity.
Qed.
End DurationAndEntrypoint.

(** ** The further properties at work on the test doubles *)

Section MoreInstances.
Import Stub Fixture.
Local Abbreviation echo_libs := (libs echo).

Lemma normalize_idempotent_witness :
  @normalize echo_libs [[one; two]] 22050
    = Returns ([[one; one; two; two]; [one; one; two; two]], 44100) /\
  @normalize echo_libs [[one; one; two; two]; [one; one; two; two]] 44100
    = Returns ([[one; one; two; two]; [one; one; two; two]], 44100).
Proof.
  assert (H : @normalize echo_libs [[one; two]] 22050
              = Returns ([[one; one; two; two]; [one; one; two; two]], 44100))
    by (vm_compute; reflexivity).
  split; [exact H|].
  exact (normalize_idempotent (L := echo_libs) _ _ _ _ H).
Defined.

Lemma normalize_no_channel_witness :
  22050 <> 44100 /\
  exists e, @normalize echo_libs [] 22050 = Raises e /\
            exn_class e = "RuntimeError" /\
            isinstance_Exception e = true.
Proof.
  assert (H : 22050 <> 44100) by discriminate.
  split; [exact H|].
  exact (proj2 (normalize_no_channel (L := echo_libs) 22050) H).
Defined.

Lemma normalize_keeps_sample_count_witness :
  1 <= shape0 [[one; two]] /\
  rectangular 2 [[one; two]] /\
  exists w', @normalize echo_libs [[one; two]] 44100 = Returns (w', 44100) /\
             shape_is 2 2 w' /\ shape1 w' = Z.of_nat 2.
Proof.
  assert (H1 : 1 <= shape0 [[one; two]]) by (vm_compute; discriminate).
  assert (H2 : rectangular 2 [[one; two]]) by (repeat constructor).
  split; [exact H1|]. split; [exact H2|].
  exact (normalize_keeps_sample_count (L := echo_libs) 2 [[one; two]] H1 H2).
Defined.

Lemma normalize_stereo_keeps_channel_order_witness :
  @normalize echo_libs [[one]; [two]] 22050
    = Returns ([[one; one]; [two; two]], 44100).
Proof.
  pose proof (normalize_stereo_keeps_channel_order (L := echo_libs)
                [one] [two] 22050) as H.
  destruct (@normalize echo_libs [[one]; [two]] 22050) as [[w' sr']|e].
  - destruct H as (o0 & o1 & H0 & H1 & -> & ->).
    injection H0 as <-. injection H1 as <-. reflexivity.
  - discriminate H.
Defined.

Lemma mix_down_stem_bounds_witness :
  (exists stems rest,
     [[ [[one]]; [[two]] ]] = stems :: rest /\ (length stems < 4)%nat) /\
  exists e, mix_down [[ [[one]]; [[two]] ]] = Raises e /\
            exn_class e = "IndexError" /\ isinstance_Exception e = true.
Proof.
  assert (H : exists stems rest,
            [[ [[one]]; [[two]] ]] = stems :: rest /\ (length stems < 4)%nat).
  { exists [ [[one]]; [[two]] ], []. split; [reflexivity | simpl; lia]. }
  split; [exact H|].
  exact (proj2 (mix_down_stem_bounds [[ [[one]]; [[two]] ]]) (or_intror H)).
Defined.

Lemma encode_audio_frames_witness :
  (1 <= 2)%nat /\
  shape_is 2 2 [[one; two]; [three; six]] /\
  exists frames,
    @encode_audio echo_libs 44100 [[one; two]; [three; six]]
      = (let* wav := @sf_write echo_libs frames 44100 in
         @b64encode echo_libs wav) /\
    shape_is 2 2 frames /\
    forall i k, sample_at frames i k = sample_at [[one; two]; [three; six]] k i.
Proof.
  assert (H1 : (1 <= 2)%nat) by lia.
  assert (H2 : shape_is 2 2 [[one; two]; [three; six]])
    by (split; [reflexivity | repeat constructor]).
  split; [exact H1|]. split; [exact H2|].
  exact (encode_audio_frames (L := echo_libs) 2 2 44100 _ H1 H2).
Defined.

Lemma isolate_voice_result_fields_witness :
  isolate_voice (isolator echo) (PStr "ab") = Returns result_of_ab /\
  dom result_of_ab = {[ "vocals_base64"; "accompaniment_base64";
                        "sample_rate"; "duration_seconds" ]} /\
  result_of_ab !! "sample_rate" = Some (PInt 44100).
Proof.
  assert (H : isolate_voice (isolator echo) (PStr "ab") = Returns result_of_ab)
    by (vm_compute; reflexivity).
  split; [exact H|].
  destruct (isolate_voice_result_fields _ _ _ H) as (Hdom & Hsr & _).
  split; [exact Hdom | exact Hsr].
Defined.

Lemma isolate_voice_first_failure_witness :
  @b64decode echo_libs (PInt 5)
    = Raises (MkExn FromException "TypeError"
                "argument should be a bytes-like object or ASCII string") /\
  isolate_voice (isolator echo) (PInt 5)
    = Raises (MkExn FromException "TypeError"
                "argument should be a bytes-like object or ASCII string").
Proof.
  assert (H : @b64decode echo_libs (PInt 5)
              = Raises (MkExn FromException "TypeError"
                  "argument should be a bytes-like object or ASCII string"))
    by reflexivity.
  split; [exact H|].
  exact (proj2 (isolate_voice_first_failure (isolator echo) (PInt 5) _)
               (or_introl H)).
Defined.

Lemma endpoint_follows_isolate_voice_witness :
  truthy (get request_not_text "audio_base64" PNone) = true /\
  isolate_voice_endpoint (isolator echo) request_not_text =
    Returns {[ "success" := PBool false;
               "error" := PStr "argument should be a bytes-like object or ASCII string" ]}.
Proof.
  assert (H : truthy (get request_not_text "audio_base64" PNone) = true)
    by reflexivity.
  split; [exact H|].
  exact (endpoint_follows_isolate_voice (isolator echo) request_not_text H).
Defined.

Lemma unrequested_accompaniment_is_still_encoded_witness :
  truthy (get request_plain "audio_base64" PNone) = true /\
  truthy (get request_plain "return_accompaniment" (PBool false)) = false /\
  separate clipping_isolator (get request_plain "audio_base64" PNone)
    = Returns (mix_ab, tensor_add (tensor_add mix_ab mix_ab) mix_ab, 44100) /\
  @encode_audio clipping_libs 44100 mix_ab = Returns "////////" /\
  isolate_voice_endpoint clipping_isolator request_plain =
    Returns {[ "success" := PBool false;
               "error" := PStr "sample out of range" ]}.
Proof.
  assert (H1 : truthy (get request_plain "audio_base64" PNone) = true)
    by reflexivity.
  assert (H2 : truthy (get request_plain "return_accompaniment" (PBool false))
               = false) by reflexivity.
  assert (H3 : separate clipping_isolator (get request_plain "audio_base64" PNone)
               = Returns (mix_ab, tensor_add (tensor_add mix_ab mix_ab) mix_ab,
                          44100)) by (vm_compute; reflexivity).
  assert (H4 : @encode_audio clipping_libs 44100 mix_ab = Returns "////////")
    by (vm_compute; reflexivity).
  assert (H5 : @encode_audio clipping_libs 44100
                 (tensor_add (tensor_add mix_ab mix_ab) mix_ab)
               = Raises (MkExn FromException "RuntimeError" "sample out of range"))
    by (vm_compute; reflexivity).
  split; [exact H1|]. split; [exact H2|]. split; [exact H3|].
  split; [exact H4|].
  exact (unrequested_accompaniment_is_still_encoded
           clipping_isolator request_plain _ _ _ _ _ H1 H2 H3 H4 H5 eq_refl).
Defined.

Lemma endpoint_response_keys_witness :
  isolate_voice_endpoint (isolator echo) request_plain = Returns response_plain /\
  dom response_plain = {[ "success"; "vocals_base64"; "duration_seconds" ]}.
Proof.
  assert (H : isolate_voice_endpoint (isolator echo) request_plain
              = Returns response_plain) by (vm_compute; reflexivity).
  split; [exact H|].
  destruct (endpoint_response_keys _ _ _ H) as [[_ Hdom] | [Hno _]].
  - rewrite Hdom. apply union_empty_r_L.
  - discriminate Hno.
Defined.

Lemma endpoint_reads_two_fields_witness :
  request_with_extra !! "audio_base64" = request_plain !! "audio_base64" /\
  request_with_extra !! "return_accompaniment"
    = request_plain !! "return_accompaniment" /\
  isolate_voice_endpoint (isolator echo) request_with_extra
    = isolate_voice_endpoint (isolator echo) request_plain.
Proof.
  assert (H1 : request_with_extra !! "audio_base64"
               = request_plain !! "audio_base64") by reflexivity.
  assert (H2 : request_with_extra !! "return_accompaniment"
               = request_plain !! "return_accompaniment") by reflexivity.
  split; [exact H1|]. split; [exact H2|].
  exact (endpoint_reads_two_fields (isolator echo) _ _ H1 H2).
Defined.

Lemma accompaniment_flag_only_adds_field_witness :
  isolate_voice_endpoint (isolator echo) request_plain = Returns response_plain /\
  response_plain !! "success" = Some (PBool true) /\
  isolate_voice_endpoint (isolator echo)
      (<["return_accompaniment" := PBool false]> request_plain)
    = Returns (delete "accompaniment_base64" response_plain) /\
  @encode_audio echo_libs 44100 (tensor_add (tensor_add mix_ab mix_ab) mix_ab)
    = Returns "11111111" /\
  isolate_voice_endpoint (isolator echo)
      (<["return_accompaniment" := PBool true]> request_plain)
    = Returns (<["accompaniment_base64" := PStr "11111111"]> response_plain).
Proof.
  assert (H : isolate_voice_endpoint (isolator echo) request_plain
              = Returns response_plain) by (vm_compute; reflexivity).
  assert (Hok : response_plain !! "success" = Some (PBool true)) by reflexivity.
  assert (Hsep : separate (isolator echo) (get request_plain "audio_base64" PNone)
                 = Returns (mix_ab, tensor_add (tensor_add mix_ab mix_ab) mix_ab,
                            44100)) by (vm_compute; reflexivity).
  destruct (accompaniment_flag_only_adds_field _ _ _ H Hok)
    as (Hfalse & v & a & sr & ab & Hsep' & Hab & Htrue).
  assert (Henc : @encode_audio echo_libs 44100
                   (tensor_add (tensor_add mix_ab mix_ab) mix_ab)
                 = Returns "11111111") by (vm_compute; reflexivity).
  assert (ab = "11111111") as -> by congruence.
  split; [exact H|]. split; [exact Hok|]. split; [exact Hfalse|].
  split; [exact Henc | exact Htrue].
Defined.

Lemma duration_of_empty_vocals_witness :
  separate (isolator echo) (PStr "") = Returns ([[]; []], [[]; []], 44100) /\
  @encode_audio echo_libs 44100 [[]; []] = Returns "" /\
  shape1 ([[]; []] : waveform) = 0 /\
  exists result,
    isolate_voice (isolator echo) (PStr "") = Returns result /\
    result !! "duration_seconds" = Some (PFloat (S754_zero false)).
Proof.
  assert (H1 : separate (isolator echo) (PStr "")
               = Returns ([[]; []], [[]; []], 44100)) by (vm_compute; reflexivity).
  assert (H2 : @encode_audio echo_libs 44100 [[]; []] = Returns "")
    by (vm_compute; reflexivity).
  assert (H3 : shape1 ([[]; []] : waveform) = 0) by reflexivity.
  split; [exact H1|]. split; [exact H2|]. split; [exact H3|].
  exact (proj2 (duration_of_empty_vocals _ _ _ _ _ _ _ H1 H2 H2) H3).
Defined.

Lemma test_isolation_report_witness :
  test_isolation (isolator echo) [one; two]
    = Returns (PBool true, PFloat (SFdiv 53 1024 (Z2SF 8) (Z2SF 44100))) /\
  exists wav audio response,
    @sf_write echo_libs (map (fun x => [x; x]) [one; two]) 44100 = Returns wav /\
    @b64encode echo_libs wav = Returns audio /\
    isolate_voice_endpoint (isolator echo) {[ "audio_base64" := PStr audio ]}
      = Returns response /\
    response !! "accompaniment_base64" = None /\
    ((PBool true = PBool true /\
      exists d, PFloat (SFdiv 53 1024 (Z2SF 8) (Z2SF 44100)) = PFloat d) \/
     (PBool true = PBool false /\
      PFloat (SFdiv 53 1024 (Z2SF 8) (Z2SF 44100)) = PNone)).
Proof.
  assert (H : test_isolation (isolator echo) [one; two]
              = Returns (PBool true, PFloat (SFdiv 53 1024 (Z2SF 8) (Z2SF 44100))))
    by (vm_compute; reflexivity).
  split; [exact H|].
  exact (test_isolation_report _ _ _ _ H).
Defined.
End MoreInstances.
